(** * Argument validators of the ARO command-line extension

    A shallow embedding of [python/az/aro/azext_aro/_validators.py].

    The validators inspect a mutable argument namespace and either return
    silently, rewrite some fields of the namespace, or raise a typed error.
    They are embedded as functions in a state-and-exception monad over the
    namespace record: a raised error leaves the mutations made so far in
    place, as in Python.  The collaborators that live outside the module
    (resource-id helpers of msrestazure, the JSON parser, the file system,
    the remote subnet lookup, [repr]) are parameters of the sections that
    use them. *)

From Stdlib Require Import String Ascii List ZArith Lia Bool Arith DecimalString.
Import ListNotations.
Local Open Scope list_scope.
Local Open Scope string_scope.

Set Implicit Arguments.

(** ** Regular expressions, as far as the module's patterns need them *)

Module Re.

(** The patterns of the module use literal characters, character classes
    (unions of ranges and literals), grouping, alternation, [*] and
    bounded repetition [{m,n}].  Strings are sequences of characters. *)
Inductive regex : Type :=
| Void : regex
| Eps : regex
| Lit (c : ascii) : regex
| Range (lo hi : ascii) : regex
| Cat (r1 r2 : regex) : regex
| Alt (r1 r2 : regex) : regex
| Star (r : regex) : regex.

Definition in_range (lo hi c : ascii) : bool :=
  Nat.leb (nat_of_ascii lo) (nat_of_ascii c) && Nat.leb (nat_of_ascii c) (nat_of_ascii hi).

(** [r{n}] *)
Fixpoint times (n : nat) (r : regex) : regex :=
  match n with
  | O => Eps
  | S k => Cat r (times k r)
  end.

(** [r{0,n}] *)
Fixpoint upto (n : nat) (r : regex) : regex :=
  match n with
  | O => Eps
  | S k => Alt Eps (Cat r (upto k r))
  end.

(** [r{lo,hi}] *)
Definition Rep (r : regex) (lo hi : nat) : regex :=
  Cat (times lo r) (upto (hi - lo) r).

(** The language of a pattern. *)
Inductive lang : regex -> list ascii -> Prop :=
| L_eps : lang Eps []
| L_lit c : lang (Lit c) [c]
| L_range lo hi c : in_range lo hi c = true -> lang (Range lo hi) [c]
| L_cat r1 r2 s1 s2 : lang r1 s1 -> lang r2 s2 -> lang (Cat r1 r2) (s1 ++ s2)
| L_alt_l r1 r2 s : lang r1 s -> lang (Alt r1 r2) s
| L_alt_r r1 r2 s : lang r2 s -> lang (Alt r1 r2) s
| L_star_nil r : lang (Star r) []
| L_star_app r s1 s2 : lang r s1 -> lang (Star r) s2 -> lang (Star r) (s1 ++ s2).

(** The matcher: Brzozowski derivatives. *)
Fixpoint nullable (r : regex) : bool :=
  match r with
  | Void => false
  | Eps => true
  | Lit _ => false
  | Range _ _ => false
  | Cat r1 r2 => nullable r1 && nullable r2
  | Alt r1 r2 => nullable r1 || nullable r2
  | Star _ => true
  end.

Fixpoint deriv (a : ascii) (r : regex) : regex :=
  match r with
  | Void => Void
  | Eps => Void
  | Lit c => if Ascii.eqb a c then Eps else Void
  | Range lo hi => if in_range lo hi a then Eps else Void
  | Cat r1 r2 =>
      if nullable r1
      then Alt (Cat (deriv a r1) r2) (deriv a r2)
      else Cat (deriv a r1) r2
  | Alt r1 r2 => Alt (deriv a r1) (deriv a r2)
  | Star r1 => Cat (deriv a r1) (Star r1)
  end.

Fixpoint matches (r : regex) (s : list ascii) : bool :=
  match s with
  | [] => nullable r
  | a :: s' => matches (deriv a r) s'
  end.

Definition newline : ascii := "010"%char.

(** [re.match('^' + r + '$', s) is not None].  [re.match] anchors the
    match at position 0, so [^] holds there; without [re.MULTILINE] the
    assertion [$] holds at the end of the string and also just before a
    newline that is the last character of the string. *)
Definition match_anchored (r : regex) (s : string) : bool :=
  let cs := list_ascii_of_string s in
  matches r cs ||
  match rev cs with
  | c :: rest => Ascii.eqb c newline && matches r (rev rest)
  | [] => false
  end.

End Re.

(** ** Python strings *)

Module PyStr.

Definition is_upper (c : ascii) : bool := Re.in_range "A" "Z" c.
Definition is_lower (c : ascii) : bool := Re.in_range "a" "z" c.

Definition upper_char (c : ascii) : ascii :=
  if is_lower c then ascii_of_nat (nat_of_ascii c - 32) else c.

Definition lower_char (c : ascii) : ascii :=
  if is_upper c then ascii_of_nat (nat_of_ascii c + 32) else c.

Fixpoint map_chars (f : ascii -> ascii) (s : string) : string :=
  match s with
  | EmptyString => EmptyString
  | String c s' => String (f c) (map_chars f s')
  end.

(** [s.lower()], on ASCII text. *)
Definition lower (s : string) : string := map_chars lower_char s.

(** [s.capitalize()]: first character upper case, the rest lower case. *)
Definition capitalize (s : string) : string :=
  match s with
  | EmptyString => EmptyString
  | String c s' => String (upper_char c) (lower s')
  end.

(** [s.replace(old, new)] for one-character [old] and [new]. *)
Definition replace (old new : ascii) (s : string) : string :=
  map_chars (fun c => if Ascii.eqb c old then new else c) s.

(** [s.rstrip('\n')]: every trailing newline is removed. *)
Fixpoint rstrip_newline (s : string) : string :=
  match s with
  | EmptyString => EmptyString
  | String c s' =>
      match rstrip_newline s' with
      | EmptyString => if Ascii.eqb c Re.newline then EmptyString else String c EmptyString
      | t => String c t
      end
  end.

(** The one-character string holding a double quote. *)
Definition dquote : string := String (ascii_of_nat 34) EmptyString.

(** Truth value of a [str]. *)
Definition truthy (s : string) : bool :=
  match s with EmptyString => false | _ => true end.

(** Truth value of a value that is [None] or a [str]. *)
Definition truthy_opt (o : option string) : bool :=
  match o with None => false | Some s => truthy s end.

Definition is_none {A : Type} (o : option A) : bool :=
  match o with None => true | Some _ => false end.

End PyStr.

(** ** Errors, the namespace and the validation monad *)

(** The error classes the validators raise, and the Python exceptions an
    ill-shaped input makes them leak. *)
Inductive error : Type :=
| InvalidArgumentValueError (msg : string)
| RequiredArgumentMissingError (msg : string)
| MutuallyExclusiveArgumentError (msg : string)
| CLIInternalError (msg : string)
| ResourceNotFoundError (msg : string)
| KeyError (key : string)
| AttributeError (name : string)
| TypeError (msg : string)
| ValueError (msg : string)
| OSError (msg : string)
| Exception (msg : string).

(** [str(err)] *)
Definition str_of_error (e : error) : string :=
  match e with
  | InvalidArgumentValueError m
  | RequiredArgumentMissingError m
  | MutuallyExclusiveArgumentError m
  | CLIInternalError m
  | ResourceNotFoundError m
  | AttributeError m
  | TypeError m
  | ValueError m
  | OSError m
  | Exception m => m
  | KeyError k => "'" ++ k ++ "'"
  end.

(** A platform workload identity object; only [resource_id] is read and
    written by the validators. *)
Record identity : Type := mk_identity { identity_resource_id : string }.

(** An attribute that a namespace may lack ([hasattr] is false). *)
Inductive attr (A : Type) : Type :=
| NoAttr : attr A
| HasAttr (v : A) : attr A.
Arguments NoAttr {A}.
Arguments HasAttr {A} v.

(** The argument namespace: the attributes the embedded validators touch.
    [None] is Python's [None]. *)
Record namespace : Type := mk_namespace {
  client_id : option string;
  client_secret : option string;
  enable_managed_identity : attr (option bool);
  platform_workload_identities : option (list (string * identity));
  mi_user_assigned : option string;
  upgradeable_to : option string;
  version : option string;
  worker_count : option Z;
  domain : option string;
  pull_secret : option string;
  outbound_type : option string;
  ingress_visibility : option string;
  apiserver_visibility : option string;
  master_subnet : option string;
  worker_subnet : option string;
  vnet : option string;
  vnet_resource_group_name : option string;
  resource_group_name : option string
}.

Definition set_platform_workload_identities (v : option (list (string * identity))) (n : namespace) : namespace :=
  mk_namespace (client_id n) (client_secret n) (enable_managed_identity n) v
    (mi_user_assigned n) (upgradeable_to n) (version n) (worker_count n) (domain n)
    (pull_secret n) (outbound_type n) (ingress_visibility n) (apiserver_visibility n)
    (master_subnet n) (worker_subnet n) (vnet n) (vnet_resource_group_name n)
    (resource_group_name n).

Definition set_pull_secret (v : option string) (n : namespace) : namespace :=
  mk_namespace (client_id n) (client_secret n) (enable_managed_identity n)
    (platform_workload_identities n)
    (mi_user_assigned n) (upgradeable_to n) (version n) (worker_count n) (domain n)
    v (outbound_type n) (ingress_visibility n) (apiserver_visibility n)
    (master_subnet n) (worker_subnet n) (vnet n) (vnet_resource_group_name n)
    (resource_group_name n).

Definition set_outbound_type (v : option string) (n : namespace) : namespace :=
  mk_namespace (client_id n) (client_secret n) (enable_managed_identity n)
    (platform_workload_identities n)
    (mi_user_assigned n) (upgradeable_to n) (version n) (worker_count n) (domain n)
    (pull_secret n) v (ingress_visibility n) (apiserver_visibility n)
    (master_subnet n) (worker_subnet n) (vnet n) (vnet_resource_group_name n)
    (resource_group_name n).

Definition set_ingress_visibility (v : option string) (n : namespace) : namespace :=
  mk_namespace (client_id n) (client_secret n) (enable_managed_identity n)
    (platform_workload_identities n)
    (mi_user_assigned n) (upgradeable_to n) (version n) (worker_count n) (domain n)
    (pull_secret n) (outbound_type n) v (apiserver_visibility n)
    (master_subnet n) (worker_subnet n) (vnet n) (vnet_resource_group_name n)
    (resource_group_name n).

Definition set_apiserver_visibility (v : option string) (n : namespace) : namespace :=
  mk_namespace (client_id n) (client_secret n) (enable_managed_identity n)
    (platform_workload_identities n)
    (mi_user_assigned n) (upgradeable_to n) (version n) (worker_count n) (domain n)
    (pull_secret n) (outbound_type n) (ingress_visibility n) v
    (master_subnet n) (worker_subnet n) (vnet n) (vnet_resource_group_name n)
    (resource_group_name n).

Definition set_master_subnet (v : option string) (n : namespace) : namespace :=
  mk_namespace (client_id n) (client_secret n) (enable_managed_identity n)
    (platform_workload_identities n)
    (mi_user_assigned n) (upgradeable_to n) (version n) (worker_count n) (domain n)
    (pull_secret n) (outbound_type n) (ingress_visibility n) (apiserver_visibility n)
    v (worker_subnet n) (vnet n) (vnet_resource_group_name n)
    (resource_group_name n).

Definition set_worker_subnet (v : option string) (n : namespace) : namespace :=
  mk_namespace (client_id n) (client_secret n) (enable_managed_identity n)
    (platform_workload_identities n)
    (mi_user_assigned n) (upgradeable_to n) (version n) (worker_count n) (domain n)
    (pull_secret n) (outbound_type n) (ingress_visibility n) (apiserver_visibility n)
    (master_subnet n) v (vnet n) (vnet_resource_group_name n)
    (resource_group_name n).

Definition set_vnet (v : option string) (n : namespace) : namespace :=
  mk_namespace (client_id n) (client_secret n) (enable_managed_identity n)
    (platform_workload_identities n)
    (mi_user_assigned n) (upgradeable_to n) (version n) (worker_count n) (domain n)
    (pull_secret n) (outbound_type n) (ingress_visibility n) (apiserver_visibility n)
    (master_subnet n) (worker_subnet n) v (vnet_resource_group_name n)
    (resource_group_name n).

Definition set_vnet_resource_group_name (v : option string) (n : namespace) : namespace :=
  mk_namespace (client_id n) (client_secret n) (enable_managed_identity n)
    (platform_workload_identities n)
    (mi_user_assigned n) (upgradeable_to n) (version n) (worker_count n) (domain n)
    (pull_secret n) (outbound_type n) (ingress_visibility n) (apiserver_visibility n)
    (master_subnet n) (worker_subnet n) (vnet n) v
    (resource_group_name n).

(** [getattr(namespace, key)] for the attributes that the key-parameterised
    validators read; an unknown name is an [AttributeError]. *)
Definition getattr (n : namespace) (key : string) : attr (option string) :=
  if key =? "master_subnet" then HasAttr (master_subnet n)
  else if key =? "worker_subnet" then HasAttr (worker_subnet n)
  else if key =? "apiserver_visibility" then HasAttr (apiserver_visibility n)
  else if key =? "ingress_visibility" then HasAttr (ingress_visibility n)
  else if key =? "outbound_type" then HasAttr (outbound_type n)
  else NoAttr.

(** [setattr(namespace, key, value)] on the same attributes. *)
Definition setattr (key : string) (v : option string) (n : namespace) : namespace :=
  if key =? "master_subnet" then set_master_subnet v n
  else if key =? "worker_subnet" then set_worker_subnet v n
  else if key =? "apiserver_visibility" then set_apiserver_visibility v n
  else if key =? "ingress_visibility" then set_ingress_visibility v n
  else if key =? "outbound_type" then set_outbound_type v n
  else n.

(** What a Python call leaves behind: a value or a raised exception. *)
Inductive outcome (A : Type) : Type :=
| Return (a : A) : outcome A
| Raise (e : error) : outcome A.
Arguments Return {A} a.
Arguments Raise {A} e.

(** The state the validators act on: the namespace and the warnings the
    module's logger has received. *)
Record world : Type := mk_world {
  ns : namespace;
  warnings : list string
}.

(** A validator is a state transformer that may raise; the state reached
    when it raises is kept. *)
Definition M (A : Type) : Type := world -> outcome A * world.

Definition ret {A : Type} (a : A) : M A := fun w => (Return a, w).

Definition raise {A : Type} (e : error) : M A := fun w => (Raise e, w).

Definition bind {A B : Type} (m : M A) (k : A -> M B) : M B :=
  fun w =>
    match m w with
    | (Return a, w') => k a w'
    | (Raise e, w') => (Raise e, w')
    end.

Declare Scope py_scope.
Delimit Scope py_scope with py.
Notation "x <- m ;; k" := (bind m (fun x => k))
  (at level 61, m at next level, right associativity) : py_scope.
Notation "m ;; k" := (bind m (fun _ => k))
  (at level 61, right associativity) : py_scope.
Local Open Scope py_scope.

Definition read_ns : M namespace := fun w => (Return (ns w), w).

Definition modify_ns (f : namespace -> namespace) : M unit :=
  fun w => (Return tt, mk_world (f (ns w)) (warnings w)).

(** [logger.warning(msg)] *)
Definition logger_warning (msg : string) : M unit :=
  fun w => (Return tt, mk_world (ns w) (warnings w ++ [msg])).

(** [if cond: raise e] *)
Definition raise_if (cond : bool) (e : error) : M unit :=
  if cond then raise e else ret tt.

(** Reading an attribute that may be missing. *)
Definition read_attr {A : Type} (name : string) (a : attr A) : M A :=
  match a with
  | HasAttr v => ret v
  | NoAttr => raise (AttributeError name)
  end.

(** Subscripting a dict: [d[key]]. *)
Definition subscript {A : Type} (key : string) (o : option A) : M A :=
  match o with
  | Some v => ret v
  | None => raise (KeyError key)
  end.

Definition run {A : Type} (m : M A) (n : namespace) : outcome A * world :=
  m (mk_world n []).

(** [try: body / except Exception as err: handler(err)].  Every [error] is
    an [Exception]. *)
Definition try_except {A : Type} (body : M A) (handler : error -> M A) : M A :=
  fun w =>
    match body w with
    | (Raise e, w') => handler e w'
    | r => r
    end.

(** [str(n)] for an [int]. *)
Definition str_int (z : Z) : string := NilZero.string_of_int (Z.to_int z).

Definition opt_eqb (a b : option string) : bool :=
  match a, b with
  | None, None => true
  | Some x, Some y => x =? y
  | _, _ => false
  end.

(** [x in xs] for strings. *)
Definition str_in (x : string) (xs : list string) : bool := existsb (String.eqb x) xs.

(** ** Collaborators outside the module *)

(** The dict [parse_resource_id] returns; a key is absent when its field
    is [None] here. *)
Record parts : Type := mk_parts {
  p_subscription : option string;
  p_resource_group : option string;
  p_namespace : option string;
  p_type : option string;
  p_name : option string;
  p_last_child_num : option Z;
  p_child_namespace_1 : option string;
  p_child_type_1 : option string;
  p_child_name_1 : option string
}.

(** [msrestazure.tools]: [resource_id] takes subscription, resource group,
    provider namespace, type and name. *)
Class ResourceIds : Type := {
  is_valid_resource_id : string -> bool;
  parse_resource_id : string -> parts;
  resource_id : string -> option string -> string -> string -> string -> string
}.

Inductive fs_entry : Type :=
| NoEntry : fs_entry
| Unreadable : fs_entry
| TextFile (contents : string) : fs_entry.

Inductive json_value : Type :=
| JsonDict : json_value
| JsonOther : json_value.

(** The interpreter and its libraries: the file system seen through
    [os.path.exists] and [open(...).read()], [json.loads] ([None] when it
    raises), [uuid.UUID] (whether it accepts the string) and [repr] of a
    list of strings. *)
Class Runtime : Type := {
  file_system : string -> fs_entry;
  json_loads : string -> option json_value;
  uuid_parses : string -> bool;
  repr_list : list string -> string
}.

(** The command context: [get_subscription_id(cmd.cli_ctx)] and the
    remote subnet fetch for (name, vnet_name, resource_group), which
    returns normally ([None]) or raises. *)
Record command : Type := mk_command {
  subscription_id : string;
  subnet_show : string -> string -> string -> option error
}.

(** ** The validators *)

Section Validators.

Context {ids : ResourceIds} {rt : Runtime}.

Definition validate_client_id (isCreate : bool) : M unit :=
  n <- read_ns ;;
  match client_id n with
  | None => ret tt
  | Some cid =>
      raise_if
        match enable_managed_identity n with HasAttr (Some true) => true | _ => false end
        (MutuallyExclusiveArgumentError
           "Must not specify --client-id when --enable-managed-identity is True") ;;
      raise_if (negb (PyStr.is_none (platform_workload_identities n)))
        (MutuallyExclusiveArgumentError
           "Must not specify --client-id when --assign-platform-workload-identity is used") ;;
      raise_if (negb (uuid_parses cid))
        (InvalidArgumentValueError ("Invalid --client-id '" ++ cid ++ "'.")) ;;
      raise_if (negb (PyStr.truthy_opt (client_secret n)))
        (RequiredArgumentMissingError "Must specify --client-secret with --client-id.") ;;
      raise_if (negb isCreate && negb (PyStr.is_none (upgradeable_to n)))
        (MutuallyExclusiveArgumentError
           "Must not specify --client-id when --upgradeable-to is used.")
  end.

Definition domain_alnum : Re.regex := Re.Alt (Re.Range "a" "z") (Re.Range "0" "9").

Definition domain_alnum_hyphen : Re.regex := Re.Alt (Re.Lit "-") domain_alnum.

(** [([a-z0-9]|[a-z0-9][-a-z0-9]{0,61}[a-z0-9])] *)
Definition domain_label : Re.regex :=
  Re.Alt domain_alnum
    (Re.Cat domain_alnum (Re.Cat (Re.Rep domain_alnum_hyphen 0 61) domain_alnum)).

Definition domain_pattern : Re.regex :=
  Re.Cat domain_label (Re.Star (Re.Cat (Re.Lit ".") domain_label)).

Definition validate_domain : M unit :=
  n <- read_ns ;;
  match domain n with
  | None => ret tt
  | Some d =>
      raise_if (negb (Re.match_anchored domain_pattern d))
        (InvalidArgumentValueError ("Invalid --domain '" ++ d ++ "'."))
  end.

Definition validate_pull_secret : M unit :=
  n <- read_ns ;;
  match pull_secret n with
  | None =>
      let warning :=
        "No --pull-secret provided: cluster will not include samples or operators from " ++
        "Red Hat or from certified partners." in
      logger_warning warning
  | Some path =>
      try_except
        (match file_system path with
         | NoEntry => ret tt
         | Unreadable => raise (OSError path)
         | TextFile contents =>
             modify_ns (set_pull_secret (Some (PyStr.rstrip_newline contents)))
         end ;;
         n' <- read_ns ;;
         match pull_secret n' with
         | None => raise (TypeError "the JSON object must be str, bytes or bytearray, not NoneType")
         | Some text =>
             match json_loads text with
             | None => raise (ValueError text)
             | Some JsonDict => ret tt
             | Some JsonOther => raise (Exception EmptyString)
             end
         end)
        (fun _ => raise (InvalidArgumentValueError "Invalid --pull-secret."))
  end.

Definition is_visibility_public (visibility : option string) : bool :=
  opt_eqb visibility (Some "Public") || PyStr.is_none visibility.

Definition validate_outbound_type : M unit :=
  n <- read_ns ;;
  outbound_type <- read_attr "outbound_type" (getattr n "outbound_type") ;;
  raise_if
    (negb (existsb (opt_eqb outbound_type) [Some "UserDefinedRouting"; Some "Loadbalancer"; None]))
    (InvalidArgumentValueError
       ("Invalid --outbound-type: must be " ++ PyStr.dquote ++ "UserDefinedRouting" ++
        PyStr.dquote ++ " or " ++ PyStr.dquote ++ "Loadbalancer" ++ PyStr.dquote)) ;;
  ingress_visibility <- read_attr "ingress_visibility" (getattr n "ingress_visibility") ;;
  apiserver_visibility <- read_attr "apiserver_visibility" (getattr n "apiserver_visibility") ;;
  raise_if
    (opt_eqb outbound_type (Some "UserDefinedRouting") &&
     (is_visibility_public ingress_visibility || is_visibility_public apiserver_visibility))
    (InvalidArgumentValueError
       ("Invalid --outbound-type: cannot use UserDefinedRouting when " ++
        "either --apiserver-visibility or --ingress-visibility is set " ++
        "to Public or not defined")).

Definition validate_vnet_resource_group_name : M unit :=
  n <- read_ns ;;
  if negb (PyStr.truthy_opt (vnet_resource_group_name n))
  then modify_ns (set_vnet_resource_group_name (resource_group_name n))
  else ret tt.

Definition validate_vnet (cmd : command) : M unit :=
  validate_vnet_resource_group_name ;;
  n <- read_ns ;;
  match vnet n with
  | None => ret tt
  | Some v =>
      if negb (PyStr.truthy v) then ret tt
      else if negb (is_valid_resource_id v) then
        modify_ns (set_vnet (Some (resource_id (subscription_id cmd)
                                     (vnet_resource_group_name n)
                                     "Microsoft.Network" "virtualNetworks" v)))
      else ret tt
  end.

(** [is_valid_resource_id] is falsy on [None]. *)
Definition is_valid_resource_id_opt (rid : option string) : bool :=
  match rid with
  | None => false
  | Some r => is_valid_resource_id r
  end.

(** [namespace.vnet + '/subnets/' + subnet] *)
Definition subnet_under_vnet (v subnet : option string) : M string :=
  match v, subnet with
  | Some v', Some s => ret (v' ++ "/subnets/" ++ s)
  | _, _ => raise (TypeError "can only concatenate str")
  end.

(** [_validate_subnet], first stage (the [if not is_valid_resource_id]
    block): the id of the subnet, built under the vnet and written back
    to the namespace when the given value is not a resource id. *)
Definition resolve_subnet (key : string) (cmd : command) : M string :=
  let flag := PyStr.replace "_" "-" key in
  n <- read_ns ;;
  given <- read_attr key (getattr n key) ;;
  if negb (is_valid_resource_id_opt given) then
    raise_if (negb (PyStr.truthy_opt (vnet n)))
      (RequiredArgumentMissingError
         ("Must specify --vnet if --" ++ flag ++ " is not an id.")) ;;
    validate_vnet cmd ;;
    n' <- read_ns ;;
    subnet <- subnet_under_vnet (vnet n') given ;;
    modify_ns (setattr key (Some subnet)) ;;
    ret subnet
  else
    match given with
    | Some s => ret s
    | None => raise (TypeError "expected string")
    end.

(** [_validate_subnet], second stage: the checks on the parts of the id. *)
Definition check_subnet_parts (key : string) (cmd : command) (subnet : string) : M parts :=
  let flag := PyStr.replace "_" "-" key in
  let parts := parse_resource_id subnet in
  subscription <- subscript "subscription" (p_subscription parts) ;;
  raise_if (negb (subscription =? subscription_id cmd))
    (InvalidArgumentValueError
       ("--" ++ flag ++ " subscription '" ++ subscription ++
        "' must equal cluster subscription.")) ;;
  let expected_namespace := "microsoft.network" in
  provider <- subscript "namespace" (p_namespace parts) ;;
  raise_if (negb (PyStr.lower provider =? expected_namespace))
    (InvalidArgumentValueError
       ("--" ++ flag ++ " namespace '" ++ provider ++ "' must equal Microsoft.Network.")) ;;
  let expected_type := "virtualnetworks" in
  type <- subscript "type" (p_type parts) ;;
  raise_if (negb (PyStr.lower type =? expected_type))
    (InvalidArgumentValueError
       ("--" ++ flag ++ " type '" ++ type ++ "' must equal virtualNetworks.")) ;;
  let expected_last_child_num := 1%Z in
  last_child_num <- subscript "last_child_num" (p_last_child_num parts) ;;
  raise_if (negb (last_child_num =? expected_last_child_num)%Z)
    (InvalidArgumentValueError ("--" ++ flag ++ " '" ++ subnet ++ "' must have one child.")) ;;
  raise_if (negb (PyStr.is_none (p_child_namespace_1 parts)))
    (InvalidArgumentValueError
       ("--" ++ flag ++ " '" ++ subnet ++ "' must not have child namespace.")) ;;
  child_type_1 <- subscript "child_type_1" (p_child_type_1 parts) ;;
  raise_if (negb (PyStr.lower child_type_1 =? "subnets"))
    (InvalidArgumentValueError
       ("--" ++ flag ++ " child type '" ++ subnet ++ "' must equal subnets.")) ;;
  ret parts.

(** What the [except Exception as err] clause of the lookup raises. *)
Definition lookup_failure (key subnet : string) (err : error) : error :=
  match err with
  | ResourceNotFoundError _ =>
      InvalidArgumentValueError
        ("Invalid --" ++ PyStr.replace "_" "-" key ++ ", error when getting '" ++
         subnet ++ "': " ++ str_of_error err)
  | _ =>
      CLIInternalError
        ("Unexpected error when getting subnet '" ++ subnet ++ "': " ++ str_of_error err)
  end.

(** [_validate_subnet], third stage: the remote existence lookup, inside
    [try] together with the subscripts that build its arguments. *)
Definition fetch_subnet (key : string) (cmd : command) (subnet : string) (parts : parts) : M unit :=
  try_except
    (name <- subscript "child_name_1" (p_child_name_1 parts) ;;
     vnet_name <- subscript "name" (p_name parts) ;;
     resource_group <- subscript "resource_group" (p_resource_group parts) ;;
     match subnet_show cmd name vnet_name resource_group with
     | None => ret tt
     | Some err => raise err
     end)
    (fun err => raise (lookup_failure key subnet err)).

Definition validate_subnet (key : string) (cmd : command) : M unit :=
  subnet <- resolve_subnet key cmd ;;
  parts <- check_subnet_parts key cmd subnet ;;
  fetch_subnet key cmd subnet parts.

Definition validate_visibility (key : string) : M unit :=
  n <- read_ns ;;
  visibility <- read_attr key (getattr n key) ;;
  match visibility with
  | None => ret tt
  | Some v =>
      let visibility := PyStr.capitalize v in
      let possible_visibilities := ["Private"; "Public"] in
      raise_if (negb (str_in visibility possible_visibilities))
        (InvalidArgumentValueError
           ("Invalid --" ++ PyStr.replace "_" "-" key ++ " '" ++ visibility ++ "'."))
  end.

Definition validate_worker_count : M unit :=
  n <- read_ns ;;
  match worker_count n with
  | None => ret tt
  | Some count =>
      if (count =? 0)%Z then ret tt
      else
        let minimum_workers_count := 3%Z in
        raise_if (count <? minimum_workers_count)%Z
          (InvalidArgumentValueError
             ("--worker-count must be greater than or equal to " ++
              str_int minimum_workers_count))
  end.

(** [^[4-9]{1}\.[0-9]{1,2}\.[0-9]{1,2}$] without the anchors. *)
Definition version_pattern : Re.regex :=
  Re.Cat (Re.Rep (Re.Range "4" "9") 1 1)
    (Re.Cat (Re.Lit ".")
       (Re.Cat (Re.Rep (Re.Range "0" "9") 1 2)
          (Re.Cat (Re.Lit ".") (Re.Rep (Re.Range "0" "9") 1 2)))).

Definition validate_version_format : M unit :=
  n <- read_ns ;;
  match version n with
  | None => ret tt
  | Some v =>
      raise_if (negb (Re.match_anchored version_pattern v))
        (InvalidArgumentValueError "--version is invalid")
  end.

(** [^[4-9]{1}\.(1[4-9]|[1-9][0-9])\.[0-9]{1,2}$] without the anchors. *)
Definition upgradeable_to_pattern : Re.regex :=
  Re.Cat (Re.Rep (Re.Range "4" "9") 1 1)
    (Re.Cat (Re.Lit ".")
       (Re.Cat (Re.Alt (Re.Cat (Re.Lit "1") (Re.Range "4" "9"))
                       (Re.Cat (Re.Range "1" "9") (Re.Range "0" "9")))
          (Re.Cat (Re.Lit ".") (Re.Rep (Re.Range "0" "9") 1 2)))).

Definition validate_upgradeable_to_format : M unit :=
  n <- read_ns ;;
  if negb (PyStr.truthy_opt (upgradeable_to n)) then ret tt
  else
    match upgradeable_to n with
    | None => ret tt
    | Some u =>
        raise_if (negb (Re.match_anchored upgradeable_to_pattern u))
          (InvalidArgumentValueError "--upgradeable-to format is invalid")
    end.

(** Truth value of a value that is [None] or a [bool]. *)
Definition truthy_bool (o : option bool) : bool :=
  match o with Some true => true | _ => false end.

(** Truth value of a value that is [None] or a list. *)
Definition truthy_list {A : Type} (o : option (list A)) : bool :=
  match o with Some (_ :: _) => true | _ => false end.

Definition validate_enable_managed_identity : M unit :=
  n <- read_ns ;;
  enabled <- read_attr "enable_managed_identity" (enable_managed_identity n) ;;
  if negb (truthy_bool enabled) then ret tt
  else
    raise_if (negb (PyStr.is_none (client_id n)))
      (InvalidArgumentValueError
         "Must not specify --client-id when --enable-managed-identity is True") ;;
    raise_if (negb (PyStr.is_none (client_secret n)))
      (InvalidArgumentValueError
         "Must not specify --client-secret when --enable-managed-identity is True") ;;
    raise_if (negb (truthy_list (platform_workload_identities n)))
      (RequiredArgumentMissingError
         "Enabling managed identity requires platform workload identities to be provided") ;;
    raise_if (negb (PyStr.truthy_opt (mi_user_assigned n)))
      (RequiredArgumentMissingError
         "Enabling managed identity requires cluster identity to be provided").

Definition identity_name_to_resource_id (cmd : command) (n : namespace) (name : string) : string :=
  resource_id (subscription_id cmd) (resource_group_name n)
    "Microsoft.ManagedIdentity" "userAssignedIdentities" name.

Definition is_valid_identity_resource_id (rid : string) : M bool :=
  let parsed := parse_resource_id rid in
  provider <- subscript "namespace" (p_namespace parsed) ;;
  if provider =? "Microsoft.ManagedIdentity" then
    type <- subscript "type" (p_type parsed) ;;
    ret (type =? "userAssignedIdentities")
  else ret false.

(** [Counter]: counts in first-insertion order. *)
Fixpoint counter_add (name : string) (counter : list (string * nat)) : list (string * nat) :=
  match counter with
  | [] => [(name, 1)]
  | (k, c) :: rest =>
      if k =? name then (k, S c) :: rest else (k, c) :: counter_add name rest
  end.

Definition counter_update (counter : list (string * nat)) (names : list string) : list (string * nat) :=
  fold_left (fun c name => counter_add name c) names counter.

(** [name_counter = Counter(); name_counter.update(names)] followed by
    [[name for name, count in name_counter.items() if count > 1]]. *)
Definition duplicate_names (names : list string) : list string :=
  let name_counter := counter_update [] names in
  map fst (filter (fun '(_, count) => Nat.ltb 1 count) name_counter).

(** The [for (name, identity) in ...] loop: [seen] are the pairs already
    visited, [todo] the ones still to visit; the identity objects are
    updated in place, in the list the namespace holds. *)
Fixpoint normalize_identities (cmd : command) (seen todo : list (string * identity)) : M unit :=
  match todo with
  | [] => ret tt
  | (name, identity) :: rest =>
      n <- read_ns ;;
      identity' <-
        (if negb (is_valid_resource_id (identity_resource_id identity)) then
           let identity' :=
             mk_identity (identity_name_to_resource_id cmd n (identity_resource_id identity)) in
           modify_ns (set_platform_workload_identities
                        (Some (seen ++ (name, identity') :: rest)%list)) ;;
           ret identity'
         else ret identity) ;;
      valid <- is_valid_identity_resource_id (identity_resource_id identity') ;;
      raise_if (negb valid)
        (InvalidArgumentValueError
           ("Resource " ++ identity_resource_id identity' ++
            " used for platform workload identity " ++ name ++
            " is not a valid userAssignedIdentity")) ;;
      normalize_identities cmd (seen ++ [(name, identity')])%list rest
  end.

Definition validate_platform_workload_identities (isCreate : bool) (cmd : command) : M unit :=
  n <- read_ns ;;
  match platform_workload_identities n with
  | None => ret tt
  | Some identities =>
      enabled <-
        (if isCreate
         then read_attr "enable_managed_identity" (enable_managed_identity n)
         else ret None) ;;
      raise_if (isCreate && negb (truthy_bool enabled))
        (RequiredArgumentMissingError
           "Must set --enable-managed-identity when providing platform workload identities") ;;
      let names := map fst identities in
      let duplicates := duplicate_names names in
      raise_if match duplicates with [] => false | _ => true end
        (InvalidArgumentValueError
           ("Platform workload identities " ++ repr_list duplicates ++
            " were provided multiple times")) ;;
      normalize_identities cmd [] identities
  end.

End Validators.

(** ** The validators of the other arguments *)

(** The attributes that the validators below read and that no validator
    writes. *)
Record options : Type := mk_options {
  worker_vm_disk_size_gb : option Z;
  load_balancer_managed_outbound_ip_count : option Z;
  refresh_cluster_credentials : option bool;
  delete_identities : option bool;
  no_wait : option bool;
  disk_encryption_set : option string;
  cluster_resource_group : option string
}.

(** What [compute_client.disk_encryption_sets.get] does: it returns, raises
    a [CloudError] whose [str] is [msg], or raises something else. *)
Inductive fetched : Type :=
| Fetched : fetched
| CloudError (msg : string) : fetched
| Failed (e : error) : fetched.

Definition set_mi_user_assigned (v : option string) (n : namespace) : namespace :=
  mk_namespace (client_id n) (client_secret n) (enable_managed_identity n)
    (platform_workload_identities n)
    v (upgradeable_to n) (version n) (worker_count n) (domain n)
    (pull_secret n) (outbound_type n) (ingress_visibility n) (apiserver_visibility n)
    (master_subnet n) (worker_subnet n) (vnet n) (vnet_resource_group_name n)
    (resource_group_name n).

Section MoreValidators.

Context {ids : ResourceIds} {rt : Runtime}.

Definition validate_client_secret (isCreate : bool) : M unit :=
  n <- read_ns ;;
  match client_secret n with
  | None => ret tt
  | Some _ =>
      raise_if
        match enable_managed_identity n with HasAttr (Some true) => true | _ => false end
        (MutuallyExclusiveArgumentError
           "Must not specify --client-secret when --enable-managed-identity is True") ;;
      raise_if (negb (PyStr.is_none (platform_workload_identities n)))
        (MutuallyExclusiveArgumentError
           "Must not specify --client-secret when --assign-platform-workload-identity is used") ;;
      raise_if (isCreate && negb (PyStr.truthy_opt (client_id n)))
        (RequiredArgumentMissingError "Must specify --client-id with --client-secret.") ;;
      raise_if (negb isCreate && negb (PyStr.is_none (upgradeable_to n)))
        (MutuallyExclusiveArgumentError
           "Must not specify --client-secret when --upgradeable-to is used.")
  end.

(** [validate_cluster_resource_group]; [check_existence] is the remote
    resource-group existence check. *)
Definition validate_cluster_resource_group
    (check_existence : string -> bool) (o : options) : M unit :=
  match cluster_resource_group o with
  | None => ret tt
  | Some group =>
      raise_if (check_existence group)
        (InvalidArgumentValueError
           ("Invalid --cluster-resource-group '" ++ group ++ "':" ++
            " resource group must not exist."))
  end.

(** [validate_disk_encryption_set]; [get] is the remote fetch by resource
    group and name.  Only [CloudError] is caught. *)
Definition validate_disk_encryption_set
    (get : string -> string -> fetched) (o : options) : M unit :=
  match disk_encryption_set o with
  | None => ret tt
  | Some des =>
      raise_if (negb (is_valid_resource_id des))
        (InvalidArgumentValueError
           ("Invalid --disk-encryption-set '" ++ des ++ "', has to be a resource ID.")) ;;
      let desid := parse_resource_id des in
      resource_group <- subscript "resource_group" (p_resource_group desid) ;;
      name <- subscript "name" (p_name desid) ;;
      match get resource_group name with
      | Fetched => ret tt
      | CloudError msg =>
          raise (InvalidArgumentValueError
                   ("Invalid --disk-encryption-set, error when getting '" ++ des ++ "':" ++
                    " " ++ msg))
      | Failed e => raise e
      end
  end.

Definition validate_subnets (master_subnet worker_subnet : string) : M unit :=
  let master_parts := parse_resource_id master_subnet in
  let worker_parts := parse_resource_id worker_subnet in
  master_group <- subscript "resource_group" (p_resource_group master_parts) ;;
  worker_group <- subscript "resource_group" (p_resource_group worker_parts) ;;
  raise_if (negb (PyStr.lower master_group =? PyStr.lower worker_group))
    (InvalidArgumentValueError
       ("--master-subnet resource group '" ++ master_group ++ "' must equal " ++
        "--worker-subnet resource group '" ++ worker_group ++ "'.")) ;;
  master_name <- subscript "name" (p_name master_parts) ;;
  worker_name <- subscript "name" (p_name worker_parts) ;;
  raise_if (negb (PyStr.lower master_name =? PyStr.lower worker_name))
    (InvalidArgumentValueError
       ("--master-subnet vnet name '" ++ master_name ++ "'" ++
        " must equal --worker-subnet vnet name '" ++ worker_name ++ "'.")) ;;
  master_child <- subscript "child_name_1" (p_child_name_1 master_parts) ;;
  worker_child <- subscript "child_name_1" (p_child_name_1 worker_parts) ;;
  raise_if (PyStr.lower master_child =? PyStr.lower worker_child)
    (InvalidArgumentValueError
       ("--master-subnet name '" ++ master_child ++ "'" ++
        " must not equal --worker-subnet name '" ++ worker_child ++ "'.")).

Definition validate_worker_vm_disk_size_gb (o : options) : M unit :=
  match worker_vm_disk_size_gb o with
  | None => ret tt
  | Some size =>
      if (size =? 0)%Z then ret tt
      else
        let minimum_worker_vm_disk_size_gb := 128%Z in
        raise_if (size <? minimum_worker_vm_disk_size_gb)%Z
          (InvalidArgumentValueError
             ("--worker-vm-disk-size-gb must be greater than or equal to " ++
              str_int minimum_worker_vm_disk_size_gb))
  end.

Definition validate_refresh_cluster_credentials (o : options) : M unit :=
  n <- read_ns ;;
  if negb (truthy_bool (refresh_cluster_credentials o)) then ret tt
  else
    raise_if (negb (PyStr.is_none (client_secret n)) || negb (PyStr.is_none (client_id n)))
      (RequiredArgumentMissingError
         "--client-id and --client-secret must be not set with --refresh-credentials.") ;;
    raise_if (negb (PyStr.is_none (platform_workload_identities n)))
      (MutuallyExclusiveArgumentError
         "--platform-workload-identities must be not set with --refresh-credentials.") ;;
    raise_if (negb (PyStr.is_none (upgradeable_to n)))
      (MutuallyExclusiveArgumentError
         "Must not specify --refresh-credentials when --upgradeable-to is used.").

Definition validate_load_balancer_managed_outbound_ip_count (o : options) : M unit :=
  match load_balancer_managed_outbound_ip_count o with
  | None => ret tt
  | Some count =>
      let minimum_managed_outbound_ips := 1%Z in
      let maximum_managed_outbound_ips := 20%Z in
      raise_if ((count <? minimum_managed_outbound_ips) ||
                (maximum_managed_outbound_ips <? count))%Z
        (InvalidArgumentValueError
           ("--load-balancer-managed-outbound-ip-count must be between " ++
            str_int minimum_managed_outbound_ips ++ " and " ++
            str_int maximum_managed_outbound_ips ++ " (inclusive)."))
  end.

Definition validate_cluster_identity (cmd : command) : M unit :=
  n <- read_ns ;;
  match mi_user_assigned n with
  | None => ret tt
  | Some given =>
      enabled <- read_attr "enable_managed_identity" (enable_managed_identity n) ;;
      raise_if (negb (truthy_bool enabled))
        (RequiredArgumentMissingError
           "Must set --enable-managed-identity when providing a cluster identity") ;;
      rid <-
        (if negb (is_valid_resource_id given) then
           let rid := identity_name_to_resource_id cmd n given in
           modify_ns (set_mi_user_assigned (Some rid)) ;;
           ret rid
         else ret given) ;;
      valid <- is_valid_identity_resource_id rid ;;
      raise_if (negb valid)
        (InvalidArgumentValueError
           ("Resource " ++ rid ++
            " used for cluster user assigned identity is not a valid userAssignedIdentity"))
  end.

Definition validate_delete_identities (o : options) : M unit :=
  match delete_identities o with
  | None => ret tt
  | Some delete =>
      raise_if (delete && truthy_bool (no_wait o))
        (MutuallyExclusiveArgumentError
           "Must not specify --no-wait when --delete-identities is used")
  end.

End MoreValidators.

(** ** The shapes the specification describes in words *)

Module Shape.

Definition is_digit (c : ascii) : bool := Re.in_range "0" "9" c.

(** A lower-case ASCII letter or a digit: the class [[a-z0-9]]. *)
Definition is_lower_alnum (c : ascii) : bool := Re.in_range "a" "z" c || is_digit c.

(** An ASCII letter of either case or a digit. *)
Definition is_alnum (c : ascii) : bool := is_lower_alnum c || Re.in_range "A" "Z" c.

Definition is_hyphen (c : ascii) : bool := Ascii.eqb c "-".

(** The pieces between the occurrences of [sep], as [str.split(sep)]
    gives them. *)
Fixpoint split_on (sep : ascii) (s : list ascii) : list (list ascii) :=
  match s with
  | [] => [[]]
  | c :: s' =>
      if Ascii.eqb c sep then [] :: split_on sep s'
      else
        match split_on sep s' with
        | piece :: pieces => (c :: piece) :: pieces
        | [] => [[c]]
        end
  end.

(** A label: 1 to 63 characters, each alphanumeric or a hyphen, the first
    and the last alphanumeric (hyphens only in internal positions). *)
Definition label_ok (alnum : ascii -> bool) (l : list ascii) : bool :=
  match l with
  | [] => false
  | c :: _ =>
      Nat.leb (length l) 63 &&
      forallb (fun x => alnum x || is_hyphen x) l &&
      alnum c && alnum (last l c)
  end.

(** A dot-separated sequence of labels. *)
Definition label_sequence (alnum : ascii -> bool) (s : string) : bool :=
  forallb (label_ok alnum) (split_on "." (list_ascii_of_string s)).

Definition ends_with_newline (s : string) : bool :=
  match rev (list_ascii_of_string s) with
  | c :: _ => Ascii.eqb c Re.newline
  | [] => false
  end.

(** The value of a string of decimal digits. *)
Definition decimal_value (l : list ascii) : nat :=
  fold_left (fun acc c => 10 * acc + (nat_of_ascii c - 48)) l 0.

(** A decimal number of one or two digits. *)
Definition short_number (l : list ascii) : bool :=
  forallb is_digit l && Nat.leb 1 (length l) && Nat.leb (length l) 2.

(** [major.minor.patch] with major a single digit 4-9, minor between 14
    and 99, patch a number of one or two digits. *)
Definition upgrade_target_shape (s : string) : bool :=
  match split_on "." (list_ascii_of_string s) with
  | [[major]; minor; patch] =>
      Re.in_range "4" "9" major &&
      short_number minor &&
      Nat.leb 14 (decimal_value minor) && Nat.leb (decimal_value minor) 99 &&
      short_number patch
  | _ => false
  end.

(** What the pattern of [validate_upgradeable_to_format] accepts, character
    by character: a digit 4-9, a dot, a digit 1-9, a digit, a dot and one
    or two digits. *)
Definition upgradeable_to_accepts (cs : list ascii) : bool :=
  match cs with
  | major :: d1 :: m1 :: m2 :: d2 :: patch =>
      Re.in_range "4" "9" major && Ascii.eqb d1 "." &&
      Re.in_range "1" "9" m1 && is_digit m2 &&
      Ascii.eqb d2 "." && short_number patch
  | _ => false
  end.

End Shape.

(** ** Concrete collaborators for running the validators on examples *)

Module Sample.

Definition join_path (segments : list (list ascii)) : string :=
  string_of_list_ascii (concat (map (fun seg => "/"%char :: seg) segments)).

Definition chars (s : string) : list ascii := list_ascii_of_string s.

Definition text (l : list ascii) : string := string_of_list_ascii l.

Definition nonempty (l : list ascii) : bool :=
  match l with [] => false | _ => true end.

Definition is_keyword (k : string) (seg : list ascii) : bool := text seg =? k.

(** Resource ids of the plain shape
    [/subscriptions/S/resourceGroups/G/providers/N/T/NAME[/CT/CN]]. *)
Definition parse_plain (rid : string) : parts :=
  let unparsed := mk_parts None None None None (Some rid) None None None None in
  match Shape.split_on "/" (chars rid) with
  | [] :: k1 :: sub :: k2 :: rg :: k3 :: provider :: type :: name :: children =>
      if is_keyword "subscriptions" k1 && is_keyword "resourceGroups" k2 &&
         is_keyword "providers" k3 && forallb nonempty [sub; rg; provider; type; name]
      then
        match children with
        | [] =>
            mk_parts (Some (text sub)) (Some (text rg)) (Some (text provider))
              (Some (text type)) (Some (text name)) None None None None
        | [child_type; child_name] =>
            if nonempty child_name then
              mk_parts (Some (text sub)) (Some (text rg)) (Some (text provider))
                (Some (text type)) (Some (text name)) (Some 1%Z) None
                (Some (text child_type)) (Some (text child_name))
            else unparsed
        | _ => unparsed
        end
      else unparsed
  | _ => unparsed
  end.

Definition build_plain (sub : string) (rg : option string) (provider type name : string) : string :=
  "/subscriptions/" ++ sub ++
  match rg with Some g => "/resourceGroups/" ++ g | None => EmptyString end ++
  "/providers/" ++ provider ++ "/" ++ type ++ "/" ++ name.

Definition plain_ids : ResourceIds := {|
  is_valid_resource_id := fun rid => negb (PyStr.is_none (p_subscription (parse_plain rid)));
  parse_resource_id := parse_plain;
  resource_id := build_plain
|}.

Definition secret_path : string := "/tmp/pull-secret.txt".

Definition secret_text : string :=
  "{" ++ PyStr.dquote ++ "auths" ++ PyStr.dquote ++ ":{}}".

(** A file system with one readable file, a JSON reader that only looks at
    the first character, and a [repr] that joins with commas. *)
Definition one_file : Runtime := {|
  file_system := fun path =>
    if path =? secret_path
    then TextFile (secret_text ++ String Re.newline EmptyString)
    else NoEntry;
  json_loads := fun text =>
    match text with
    | String "{" _ => Some JsonDict
    | String "[" _ => Some JsonOther
    | _ => None
    end;
  uuid_parses := fun s => Nat.eqb (String.length s) 36;
  repr_list := fun names => "[" ++ String.concat ", " names ++ "]"
|}.

Definition blank : namespace :=
  mk_namespace None None (HasAttr None) None None None None None None None None None None
    None None None None None.

Definition with_client_id (v : option string) (n : namespace) : namespace :=
  mk_namespace v (client_secret n) (enable_managed_identity n)
    (platform_workload_identities n)
    (mi_user_assigned n) (upgradeable_to n) (version n) (worker_count n) (domain n)
    (pull_secret n) (outbound_type n) (ingress_visibility n) (apiserver_visibility n)
    (master_subnet n) (worker_subnet n) (vnet n) (vnet_resource_group_name n)
    (resource_group_name n).

Definition with_enable_managed_identity (v : attr (option bool)) (n : namespace) : namespace :=
  mk_namespace (client_id n) (client_secret n) v
    (platform_workload_identities n)
    (mi_user_assigned n) (upgradeable_to n) (version n) (worker_count n) (domain n)
    (pull_secret n) (outbound_type n) (ingress_visibility n) (apiserver_visibility n)
    (master_subnet n) (worker_subnet n) (vnet n) (vnet_resource_group_name n)
    (resource_group_name n).

Definition with_upgradeable_to (v : option string) (n : namespace) : namespace :=
  mk_namespace (client_id n) (client_secret n) (enable_managed_identity n)
    (platform_workload_identities n)
    (mi_user_assigned n) v (version n) (worker_count n) (domain n)
    (pull_secret n) (outbound_type n) (ingress_visibility n) (apiserver_visibility n)
    (master_subnet n) (worker_subnet n) (vnet n) (vnet_resource_group_name n)
    (resource_group_name n).

Definition with_version (v : option string) (n : namespace) : namespace :=
  mk_namespace (client_id n) (client_secret n) (enable_managed_identity n)
    (platform_workload_identities n)
    (mi_user_assigned n) (upgradeable_to n) v (worker_count n) (domain n)
    (pull_secret n) (outbound_type n) (ingress_visibility n) (apiserver_visibility n)
    (master_subnet n) (worker_subnet n) (vnet n) (vnet_resource_group_name n)
    (resource_group_name n).

Definition with_worker_count (v : option Z) (n : namespace) : namespace :=
  mk_namespace (client_id n) (client_secret n) (enable_managed_identity n)
    (platform_workload_identities n)
    (mi_user_assigned n) (upgradeable_to n) (version n) v (domain n)
    (pull_secret n) (outbound_type n) (ingress_visibility n) (apiserver_visibility n)
    (master_subnet n) (worker_subnet n) (vnet n) (vnet_resource_group_name n)
    (resource_group_name n).

Definition with_domain (v : option string) (n : namespace) : namespace :=
  mk_namespace (client_id n) (client_secret n) (enable_managed_identity n)
    (platform_workload_identities n)
    (mi_user_assigned n) (upgradeable_to n) (version n) (worker_count n) v
    (pull_secret n) (outbound_type n) (ingress_visibility n) (apiserver_visibility n)
    (master_subnet n) (worker_subnet n) (vnet n) (vnet_resource_group_name n)
    (resource_group_name n).

Definition with_resource_group_name (v : option string) (n : namespace) : namespace :=
  mk_namespace (client_id n) (client_secret n) (enable_managed_identity n)
    (platform_workload_identities n)
    (mi_user_assigned n) (upgradeable_to n) (version n) (worker_count n) (domain n)
    (pull_secret n) (outbound_type n) (ingress_visibility n) (apiserver_visibility n)
    (master_subnet n) (worker_subnet n) (vnet n) (vnet_resource_group_name n) v.

(** A command context whose remote lookup answers [answer] for every
    subnet. *)
Definition context (answer : option error) : command :=
  mk_command "sub-1" (fun _ _ _ => answer).

End Sample.

(** ** Vocabulary for the statements about platform workload identities *)

Module IdentityShape.

(** [counter[name]] *)
Fixpoint counter_get (counter : list (string * nat)) (name : string) : nat :=
  match counter with
  | [] => 0
  | (k, c) :: rest => if k =? name then c else counter_get rest name
  end.

Section Collaborators.
Context {ids : ResourceIds}.

(** The identity after its visit by the loop. *)
Definition normalized (cmd : command) (n : namespace) (i : identity) : identity :=
  if is_valid_resource_id (identity_resource_id i) then i
  else mk_identity (identity_name_to_resource_id cmd n (identity_resource_id i)).

Definition normalized_pair (cmd : command) (n : namespace) (p : string * identity) : string * identity :=
  (fst p, normalized cmd n (snd p)).

(** Whether a resource id has the provider and type of a user-assigned
    identity; [None] when the parsed id lacks the key that is looked up. *)
Definition identity_kind (rid : string) : option bool :=
  match p_namespace (parse_resource_id rid) with
  | None => None
  | Some provider =>
      if provider =? "Microsoft.ManagedIdentity" then
        match p_type (parse_resource_id rid) with
        | None => None
        | Some type => Some (type =? "userAssignedIdentities")
        end
      else Some false
  end.

(** The identity is a user-assigned identity once visited. *)
Definition accepted (cmd : command) (n : namespace) (p : string * identity) : Prop :=
  identity_kind (identity_resource_id (normalized cmd n (snd p))) = Some true.

End Collaborators.

Definition duplicated_message {rt : Runtime} (names : list string) : error :=
  InvalidArgumentValueError
    ("Platform workload identities " ++ repr_list (duplicate_names names) ++
     " were provided multiple times").

Definition not_an_identity (name : string) (i : identity) : error :=
  InvalidArgumentValueError
    ("Resource " ++ identity_resource_id i ++
     " used for platform workload identity " ++ name ++
     " is not a valid userAssignedIdentity").

Definition managed_identity_required : error :=
  RequiredArgumentMissingError
    "Must set --enable-managed-identity when providing platform workload identities".

End IdentityShape.

(** ** Vocabulary for the statements about the domain pattern *)

Module DomainShape.
Import Re Shape.

(** A pattern that matches exactly the one-character strings whose
    character satisfies [P]. *)
Definition single (P : ascii -> bool) (r : regex) : Prop :=
  forall s, lang r s <-> exists c, s = [c] /\ P c = true.

Definition is_label_char (c : ascii) : bool := is_hyphen c || is_lower_alnum c.

Definition dot : ascii := "."%char.

Definition no_dot (l : list ascii) : bool := forallb (fun c => negb (Ascii.eqb c dot)) l.

(** [sep.join(pieces)] for a non-empty list of pieces. *)
Definition join_dots (pieces : list (list ascii)) : list ascii :=
  match pieces with
  | [] => []
  | l :: ls => l ++ flat_map (cons dot) ls
  end.

Definition more_labels : regex := Star (Cat (Lit dot) domain_label).

End DomainShape.

(** ** Messages and example inputs named in the statements *)

Module Cases.
Import Sample.

Definition upgrade_target (s : string) : namespace := with_upgradeable_to (Some s) blank.

Definition both_set : namespace :=
  with_client_id (Some "11111111-2222-3333-4444-555555555555")
    (with_enable_managed_identity (HasAttr (Some true)) blank).

Definition udr : option string := Some "UserDefinedRouting".

Definition routed (ingress apiserver : option string) : namespace :=
  set_apiserver_visibility apiserver
    (set_ingress_visibility ingress (set_outbound_type udr blank)).

Definition bad_outbound_type : error :=
  InvalidArgumentValueError
    ("Invalid --outbound-type: must be " ++ PyStr.dquote ++ "UserDefinedRouting" ++
     PyStr.dquote ++ " or " ++ PyStr.dquote ++ "Loadbalancer" ++ PyStr.dquote).

Definition public_with_udr : error :=
  InvalidArgumentValueError
    ("Invalid --outbound-type: cannot use UserDefinedRouting when " ++
     "either --apiserver-visibility or --ingress-visibility is set " ++
     "to Public or not defined").

Definition invalid_domain (d : string) : error :=
  InvalidArgumentValueError ("Invalid --domain '" ++ d ++ "'.").

Definition trailing_newline (s : string) : string := s ++ String Re.newline EmptyString.

Definition missing_pull_secret : string :=
  "No --pull-secret provided: cluster will not include samples or operators from " ++
  "Red Hat or from certified partners.".

Definition invalid_pull_secret : error := InvalidArgumentValueError "Invalid --pull-secret.".

(** Whether [json.loads] returns a [dict] on the text. *)
Definition is_json_object {rt : Runtime} (text : string) : bool :=
  match json_loads text with
  | Some JsonDict => true
  | _ => false
  end.

(** The verdict on the text that ends up in the namespace. *)
Definition verdict {rt : Runtime} (text : string) : outcome unit :=
  if is_json_object text then Return tt else Raise invalid_pull_secret.

Definition newlines (k : nat) : string := string_of_list_ascii (repeat Re.newline k).

Definition from_file : namespace := set_pull_secret (Some secret_path) blank.

Definition inline (text : string) : namespace := set_pull_secret (Some text) blank.

(** A cluster in resource group "rg1" whose subnets are given by name
    under the vnet "vnet1". *)
Definition short_names : namespace :=
  set_master_subnet (Some "master")
    (set_vnet (Some "vnet1") (with_resource_group_name (Some "rg1") blank)).

Definition vnet1 : string :=
  "/subscriptions/sub-1/resourceGroups/rg1/providers/Microsoft.Network/virtualNetworks/vnet1".

(** The vnet of another subscription. *)
Definition vnet9 : string :=
  "/subscriptions/sub-9/resourceGroups/rg1/providers/Microsoft.Network/virtualNetworks/vnet1".

(** The same namespace once [validate_subnet("master_subnet")] has run. *)
Definition full_ids : namespace :=
  set_master_subnet (Some (vnet1 ++ "/subnets/master"))
    (set_vnet (Some vnet1)
       (set_vnet_resource_group_name (Some "rg1")
          (with_resource_group_name (Some "rg1") blank))).

Definition gone : error := ResourceNotFoundError "subnet not found".

Definition boom : error := Exception "connection reset".

(** A counter lists every key once. *)
Definition well_formed (counter : list (string * nat)) : Prop :=
  NoDup (map fst counter).

Definition registry_id : string :=
  "/subscriptions/sub-1/resourceGroups/rg1/providers/" ++
  "Microsoft.ManagedIdentity/userAssignedIdentities/registry".

(** A namespace of the create command with managed identity enabled or
    not and the given identities. *)
Definition cluster (enabled : bool) (identities : list (string * identity)) : namespace :=
  set_platform_workload_identities (Some identities)
    (with_enable_managed_identity (HasAttr (Some enabled))
       (with_resource_group_name (Some "rg1") blank)).

Definition twice : list (string * identity) :=
  [("csi", mk_identity "a"); ("registry", mk_identity "b"); ("csi", mk_identity "c")].

Definition by_name : list (string * identity) :=
  [("csi", mk_identity "csi-identity"); ("registry", mk_identity registry_id)].

Definition with_vnet : list (string * identity) :=
  [("csi", mk_identity "csi-identity"); ("network", mk_identity vnet1);
   ("registry", mk_identity "registry-identity")].

Definition csi_id : string :=
  "/subscriptions/sub-1/resourceGroups/rg1/providers/" ++
  "Microsoft.ManagedIdentity/userAssignedIdentities/csi-identity".

End Cases.

(** ** Vocabulary for the statements about the other validators *)

Module MoreShape.
Import Shape.

(** What the pattern of [validate_version_format] accepts: between the
    dots, a digit 4-9, a number of one or two digits and another one. *)
Definition version_accepts (cs : list ascii) : bool :=
  match split_on "." cs with
  | [[major]; minor; patch] =>
      Re.in_range "4" "9" major && short_number minor && short_number patch
  | _ => false
  end.

(** Equal up to the case of ASCII letters. *)
Definition same_ignoring_case (a b : string) : bool := PyStr.lower a =? PyStr.lower b.

(** The namespace differs from [n] at most in the two vnet attributes. *)
Definition same_but_vnet (n n' : namespace) : Prop :=
  n' = set_vnet (vnet n') (set_vnet_resource_group_name (vnet_resource_group_name n') n).

(** No options given. *)
Definition no_options : options := mk_options None None None None None None None.

Definition with_disk_size (size : Z) : options :=
  mk_options (Some size) None None None None None None.

Definition with_ip_count (count : Z) : options :=
  mk_options None (Some count) None None None None None.

Definition refreshing : options :=
  mk_options None None (Some true) None None None None.

Definition with_disk_encryption_set (des : string) : options :=
  mk_options None None None None None (Some des) None.

Definition with_client_secret (v : option string) (n : namespace) : namespace :=
  mk_namespace (client_id n) v (enable_managed_identity n)
    (platform_workload_identities n)
    (mi_user_assigned n) (upgradeable_to n) (version n) (worker_count n) (domain n)
    (pull_secret n) (outbound_type n) (ingress_visibility n) (apiserver_visibility n)
    (master_subnet n) (worker_subnet n) (vnet n) (vnet_resource_group_name n)
    (resource_group_name n).

(** A service principal: a client id and its secret. *)
Definition service_principal : namespace :=
  with_client_secret (Some "s3cret") Cases.both_set.

Definition disabled (n : namespace) : namespace :=
  Sample.with_enable_managed_identity (HasAttr (Some false)) n.

(** A cluster with managed identity, two workload identities and a
    cluster identity given by name. *)
Definition managed_cluster : namespace :=
  set_mi_user_assigned (Some "cluster-identity") (Cases.cluster true Cases.by_name).

Definition cluster_identity_id : string :=
  "/subscriptions/sub-1/resourceGroups/rg1/providers/" ++
  "Microsoft.ManagedIdentity/userAssignedIdentities/cluster-identity".

Definition master_id : string := Cases.vnet1 ++ "/subnets/master".

Definition shouting_master_id : string := Cases.vnet1 ++ "/subnets/MASTER".

Definition worker_id : string := Cases.vnet1 ++ "/subnets/worker".

Definition des_id : string :=
  "/subscriptions/sub-1/resourceGroups/rg1/providers/" ++
  "Microsoft.Compute/diskEncryptionSets/des1".

(** A remote side that answers every fetch with [answer]. *)
Definition answering (answer : fetched) : string -> string -> fetched :=
  fun _ _ => answer.

End MoreShape.

(** * Properties *)

Import Cases.


(** ** The matcher decides the language of a pattern *)

Module ReFacts.
Import Re.
Local Open Scope list_scope.

Lemma cat_inv (r1 r2 : regex) (s : list ascii) :
  lang (Cat r1 r2) s -> exists s1 s2, s = s1 ++ s2 /\ lang r1 s1 /\ lang r2 s2.
Proof. intro H. inversion H; subst. eauto. Qed.

Lemma alt_inv (r1 r2 : regex) (s : list ascii) :
  lang (Alt r1 r2) s -> lang r1 s \/ lang r2 s.
Proof. intro H. inversion H; subst; auto. Qed.

Lemma cat_intro_cons (r1 r2 : regex) (a : ascii) (s1 s2 : list ascii) :
  lang r1 (a :: s1) -> lang r2 s2 -> lang (Cat r1 r2) (a :: s1 ++ s2).
Proof. intros H1 H2. change (a :: s1 ++ s2) with ((a :: s1) ++ s2). constructor; assumption. Qed.

Lemma cat_intro_nil (r1 r2 : regex) (s : list ascii) :
  lang r1 [] -> lang r2 s -> lang (Cat r1 r2) s.
Proof. intros H1 H2. change s with ([] ++ s). constructor; assumption. Qed.

Lemma nullable_lang (r : regex) : nullable r = true <-> lang r [].
Proof.
  induction r; simpl.
  - split; intro H; [discriminate | inversion H].
  - split; intro H; [constructor | reflexivity].
  - split; intro H; [discriminate | inversion H].
  - split; intro H; [discriminate | inversion H].
  - rewrite andb_true_iff, IHr1, IHr2. split.
    + intros [H1 H2]. apply cat_intro_nil; assumption.
    + intro H. apply cat_inv in H as (s1 & s2 & Heq & Ha & Hb). symmetry in Heq.
      apply app_eq_nil in Heq as [-> ->]. tauto.
  - rewrite orb_true_iff, IHr1, IHr2. split.
    + intros [H | H]; [apply L_alt_l | apply L_alt_r]; assumption.
    + apply alt_inv.
  - split; intro H; [constructor | reflexivity].
Qed.

Lemma star_cons_inv (r : regex) (a : ascii) (s : list ascii) :
  lang (Star r) (a :: s) ->
  exists s1 s2, s = s1 ++ s2 /\ lang r (a :: s1) /\ lang (Star r) s2.
Proof.
  intro H. remember (Star r) as q eqn:Hq. remember (a :: s) as t eqn:Ht.
  revert a s Ht. induction H as [| | | | | | | q0 t1 t2 H1 IH1 H2 IH2];
    intros a' s' Ht; try discriminate.
  injection Hq as ->. destruct t1 as [| b t1']; simpl in Ht.
  - subst t2. apply IH2; reflexivity.
  - injection Ht as -> <-. exists t1', t2. auto.
Qed.

Lemma deriv_lang (r : regex) : forall a s, lang (deriv a r) s <-> lang r (a :: s).
Proof.
  induction r; intros a s; simpl.
  - split; intro H; inversion H.
  - split; intro H; inversion H.
  - destruct (Ascii.eqb_spec a c) as [-> | Hne]; split; intro H; inversion H; subst.
    + constructor.
    + constructor.
    + contradiction.
  - destruct (in_range lo hi a) eqn:Hr; split; intro H; inversion H; subst.
    + constructor; assumption.
    + constructor.
    + congruence.
  - destruct (nullable r1) eqn:Hn.
    + split; intro H.
      * apply alt_inv in H as [H | H].
        -- apply cat_inv in H as (s1 & s2 & -> & Ha & Hb).
           apply cat_intro_cons; [apply IHr1 |]; assumption.
        -- apply cat_intro_nil; [apply nullable_lang | apply IHr2]; assumption.
      * apply cat_inv in H as (s1 & s2 & Heq & Ha & Hb).
        destruct s1 as [| b s1']; simpl in Heq.
        -- subst s2. apply L_alt_r, IHr2; assumption.
        -- injection Heq as <- ->. apply L_alt_l. constructor; [apply IHr1 |]; assumption.
    + split; intro H.
      * apply cat_inv in H as (s1 & s2 & -> & Ha & Hb).
        apply cat_intro_cons; [apply IHr1 |]; assumption.
      * apply cat_inv in H as (s1 & s2 & Heq & Ha & Hb).
        destruct s1 as [| b s1']; simpl in Heq.
        -- apply nullable_lang in Ha. congruence.
        -- injection Heq as <- ->. constructor; [apply IHr1 |]; assumption.
  - split; intro H.
    + apply alt_inv in H as [H | H]; [apply L_alt_l, IHr1 | apply L_alt_r, IHr2]; assumption.
    + apply alt_inv in H as [H | H]; [apply L_alt_l, IHr1 | apply L_alt_r, IHr2]; assumption.
  - split; intro H.
    + apply cat_inv in H as (s1 & s2 & -> & Ha & Hb).
      change (a :: s1 ++ s2) with ((a :: s1) ++ s2).
      apply L_star_app; [apply IHr |]; assumption.
    + apply star_cons_inv in H as (s1 & s2 & -> & H1 & H2).
      constructor; [apply IHr |]; assumption.
Qed.

Lemma matches_lang (r : regex) (s : list ascii) : matches r s = true <-> lang r s.
Proof.
  revert r. induction s as [| a s IH]; intro r; simpl.
  - apply nullable_lang.
  - rewrite IH. apply deriv_lang.
Qed.

Lemma matches_false_iff (r : regex) (s : list ascii) : matches r s = false <-> ~ lang r s.
Proof.
  rewrite <- matches_lang. destruct (matches r s); split; intro H; try discriminate; auto.
  exfalso; apply H; reflexivity.
Qed.

End ReFacts.

(** ** The domain pattern accepts exactly the sequences of lower-case labels *)

Module DomainFacts.
Import Re Shape DomainShape ReFacts.
Local Open Scope list_scope.

Lemma single_range (lo hi : ascii) : single (in_range lo hi) (Range lo hi).
Proof.
  intro s. split.
  - intro H. inversion H; subst. eauto.
  - intros (c & -> & Hc). constructor. assumption.
Qed.

Lemma single_lit (a : ascii) : single (fun c => Ascii.eqb c a) (Lit a).
Proof.
  intro s. split.
  - intro H. inversion H; subst. exists a. split; [reflexivity | apply Ascii.eqb_refl].
  - intros (c & -> & Hc). apply Ascii.eqb_eq in Hc. subst. constructor.
Qed.

Lemma single_alt (P Q : ascii -> bool) (r1 r2 : regex) :
  single P r1 -> single Q r2 -> single (fun c => P c || Q c) (Alt r1 r2).
Proof.
  intros H1 H2 s. split.
  - intro H. apply alt_inv in H as [H | H].
    + apply H1 in H as (c & -> & Hc). exists c. rewrite Hc. auto.
    + apply H2 in H as (c & -> & Hc). exists c. rewrite Hc, orb_true_r. auto.
  - intros (c & -> & Hc). apply orb_true_iff in Hc as [Hc | Hc].
    + apply L_alt_l, H1. eauto.
    + apply L_alt_r, H2. eauto.
Qed.

Lemma single_alnum : single is_lower_alnum domain_alnum.
Proof. apply single_alt; apply single_range. Qed.

Lemma single_alnum_hyphen : single is_label_char domain_alnum_hyphen.
Proof. apply single_alt; [apply single_lit | apply single_alnum]. Qed.

Lemma lang_eps (s : list ascii) : lang Eps s <-> s = [].
Proof. split; intro H; [inversion H; reflexivity | subst; constructor]. Qed.

Lemma upto_single (P : ascii -> bool) (r : regex) (n : nat) :
  single P r ->
  forall s, lang (upto n r) s <-> length s <= n /\ forallb P s = true.
Proof.
  intro Hr. induction n as [| n IH]; intro s; simpl.
  - rewrite lang_eps. split.
    + intros ->. simpl. auto.
    + intros [Hl _]. destruct s; [reflexivity | simpl in Hl; lia].
  - split.
    + intro H. apply alt_inv in H as [H | H].
      * apply lang_eps in H. subst. simpl. split; [lia | reflexivity].
      * apply cat_inv in H as (s1 & s2 & -> & Ha & Hb).
        apply Hr in Ha as (c & -> & Hc). apply IH in Hb as [Hl Hf].
        simpl. rewrite Hc, Hf. split; [lia | reflexivity].
    + intros [Hl Hf]. destruct s as [| c s'].
      * apply L_alt_l. constructor.
      * simpl in Hl, Hf. apply andb_true_iff in Hf as [Hc Hf].
        apply L_alt_r. change (c :: s') with ([c] ++ s'). constructor.
        -- apply Hr. eauto.
        -- apply IH. split; [lia | assumption].
Qed.

Lemma rep_from_zero (P : ascii -> bool) (r : regex) (n : nat) :
  single P r ->
  forall s, lang (Rep r 0 n) s <-> length s <= n /\ forallb P s = true.
Proof.
  intros Hr s. unfold Rep. simpl. rewrite Nat.sub_0_r.
  rewrite <- (upto_single n Hr). split.
  - intro H. apply cat_inv in H as (s1 & s2 & -> & Ha & Hb).
    apply lang_eps in Ha. subst. assumption.
  - intro H. apply cat_intro_nil; [constructor | assumption].
Qed.

Lemma label_char_of_alnum (c : ascii) : is_lower_alnum c = true -> is_label_char c = true.
Proof. intro H. unfold is_label_char. rewrite H. apply orb_true_r. Qed.

Lemma label_char_comm (c : ascii) : (is_lower_alnum c || is_hyphen c) = is_label_char c.
Proof. unfold is_label_char. apply orb_comm. Qed.

Lemma forallb_pointwise (A : Type) (f g : A -> bool) (l : list A) :
  (forall x, f x = g x) -> forallb f l = forallb g l.
Proof. intro H. induction l as [| x l IH]; simpl; [reflexivity | rewrite H, IH; reflexivity]. Qed.

Lemma last_snoc (A : Type) (l : list A) (x d : A) : last (l ++ [x]) d = x.
Proof. apply last_last. Qed.

(** The label group of the pattern. *)
Lemma label_lang (l : list ascii) : lang domain_label l <-> label_ok is_lower_alnum l = true.
Proof.
  unfold domain_label. split.
  - intro H. apply alt_inv in H as [H | H].
    + apply single_alnum in H as (c & -> & Hc). simpl. rewrite Hc. reflexivity.
    + apply cat_inv in H as (s1 & s2 & -> & Ha & H).
      apply cat_inv in H as (mid & s3 & -> & Hm & Hz).
      apply single_alnum in Ha as (c1 & -> & Hc1).
      apply single_alnum in Hz as (c2 & -> & Hc2).
      apply (rep_from_zero 61 single_alnum_hyphen) in Hm as [Hl Hf].
      change ([c1] ++ mid ++ [c2]) with (c1 :: (mid ++ [c2])).
      unfold label_ok.
      change (last (c1 :: mid ++ [c2]) c1) with (last ((c1 :: mid) ++ [c2]) c1).
      rewrite last_snoc, Hc1, Hc2.
      assert (Hlen : Nat.leb (length (c1 :: mid ++ [c2])) 63 = true).
      { apply Nat.leb_le. simpl. rewrite length_app. simpl. lia. }
      rewrite Hlen. simpl. rewrite Hc1. simpl.
      rewrite forallb_app. simpl. rewrite Hc2. simpl.
      rewrite andb_true_r. rewrite andb_true_r.
      rewrite (forallb_pointwise _ _ mid label_char_comm), Hf. reflexivity.
  - unfold label_ok. destruct l as [| c t]; [discriminate |].
    intro H. apply andb_true_iff in H as [H Hlast].
    apply andb_true_iff in H as [H Hc]. apply andb_true_iff in H as [Hlen Hall].
    apply Nat.leb_le in Hlen.
    destruct (exists_last (l := c :: t)) as (front & z & Heq); [discriminate |].
    rewrite Heq in Hlast, Hall, Hlen. rewrite last_snoc in Hlast.
    destruct front as [| c1 mid].
    + simpl in Heq. injection Heq as Ec Et. rewrite Et.
      apply L_alt_l, single_alnum. eauto.
    + simpl in Heq. injection Heq as Ec Et. rewrite Et.
      apply L_alt_r. change (c :: mid ++ [z]) with ([c] ++ mid ++ [z]).
      apply L_cat; [apply single_alnum; eauto |].
      apply L_cat; [| apply single_alnum; eauto].
      apply (rep_from_zero 61 single_alnum_hyphen).
      simpl in Hlen. rewrite length_app in Hlen. simpl in Hlen.
      split; [lia |].
      change ((c1 :: mid) ++ [z]) with (c1 :: (mid ++ [z])) in Hall. simpl in Hall.
      apply andb_true_iff in Hall as [_ Hall]. rewrite forallb_app in Hall.
      apply andb_true_iff in Hall as [Hall _].
      rewrite (forallb_pointwise _ _ mid label_char_comm) in Hall. exact Hall.
Qed.

Lemma label_char_not_dot (c : ascii) : is_label_char c = true -> Ascii.eqb c dot = false.
Proof.
  intro H. destruct (Ascii.eqb_spec c dot) as [-> | _]; [| reflexivity].
  vm_compute in H. discriminate.
Qed.

Lemma label_no_dot (l : list ascii) : label_ok is_lower_alnum l = true -> no_dot l = true.
Proof.
  unfold label_ok. destruct l as [| c t]; [discriminate |]. intro H.
  apply andb_true_iff in H as [H _]. apply andb_true_iff in H as [H _].
  apply andb_true_iff in H as [_ H].
  unfold no_dot. apply forallb_forall. intros x Hx.
  rewrite forallb_forall in H. specialize (H x Hx).
  rewrite label_char_comm in H. rewrite (label_char_not_dot _ H). reflexivity.
Qed.

Lemma split_on_nonempty (s : list ascii) : split_on dot s <> [].
Proof.
  destruct s as [| c s]; simpl; [discriminate |].
  destruct (Ascii.eqb c dot); [discriminate |].
  destruct (split_on dot s); discriminate.
Qed.

Lemma split_on_no_dot (l : list ascii) : no_dot l = true -> split_on dot l = [l].
Proof.
  induction l as [| c l IH]; simpl; [reflexivity |]. intro H.
  apply andb_true_iff in H as [Hc Hl]. apply negb_true_iff in Hc.
  rewrite Hc, (IH Hl). reflexivity.
Qed.

Lemma split_on_app (l s : list ascii) :
  no_dot l = true -> split_on dot (l ++ dot :: s) = l :: split_on dot s.
Proof.
  induction l as [| c l IH]; simpl; intro H.
  - reflexivity.
  - apply andb_true_iff in H as [Hc Hl]. apply negb_true_iff in Hc.
    rewrite Hc, (IH Hl). reflexivity.
Qed.

Lemma join_split (s : list ascii) : join_dots (split_on dot s) = s.
Proof.
  induction s as [| c s IH]; simpl; [reflexivity |].
  destruct (Ascii.eqb_spec c dot) as [-> | Hne].
  - simpl. f_equal. destruct (split_on dot s) as [| l ls] eqn:E.
    + exfalso. exact (split_on_nonempty s E).
    + simpl in IH. simpl. rewrite <- IH. reflexivity.
  - destruct (split_on dot s) as [| l ls] eqn:E.
    + exfalso. exact (split_on_nonempty s E).
    + simpl in IH. simpl. rewrite IH. reflexivity.
Qed.

Lemma split_join (l : list ascii) (ls : list (list ascii)) :
  forallb no_dot (l :: ls) = true -> split_on dot (join_dots (l :: ls)) = l :: ls.
Proof.
  revert l. induction ls as [| l' ls IH]; intros l H; simpl in H |- *.
  - rewrite app_nil_r. apply split_on_no_dot.
    apply andb_true_iff in H as [H _]. exact H.
  - apply andb_true_iff in H as [Hl H].
    rewrite split_on_app by exact Hl. f_equal. apply (IH l'). exact H.
Qed.

Lemma more_labels_intro (ls : list (list ascii)) :
  forallb (label_ok is_lower_alnum) ls = true -> lang more_labels (flat_map (cons dot) ls).
Proof.
  induction ls as [| l ls IH]; simpl; intro H.
  - constructor.
  - apply andb_true_iff in H as [Hl H].
    change (dot :: l ++ flat_map (cons dot) ls) with ((dot :: l) ++ flat_map (cons dot) ls).
    apply L_star_app; [| apply IH; exact H].
    change (dot :: l) with ([dot] ++ l). apply L_cat; [constructor | apply label_lang; exact Hl].
Qed.

Lemma more_labels_inv (t : list ascii) :
  lang more_labels t ->
  exists ls, t = flat_map (cons dot) ls /\ forallb (label_ok is_lower_alnum) ls = true.
Proof.
  intro H. remember more_labels as q eqn:Hq.
  induction H as [| | | | | | | q0 t1 t2 H1 IH1 H2 IH2]; try discriminate.
  - exists []. auto.
  - injection Hq as ->. destruct (IH2 eq_refl) as (ls & -> & Hls).
    apply cat_inv in H1 as (d & l & -> & Hd & Hl).
    inversion Hd; subst. apply label_lang in Hl.
    exists (l :: ls). simpl. rewrite Hl, Hls. auto.
Qed.

(** The pattern of [validate_domain], character by character. *)
Lemma domain_pattern_lang (s : list ascii) :
  lang domain_pattern s <-> forallb (label_ok is_lower_alnum) (split_on dot s) = true.
Proof.
  split.
  - intro H. apply cat_inv in H as (l & t & -> & Hl & Ht).
    apply label_lang in Hl. apply more_labels_inv in Ht as (ls & -> & Hls).
    change (l ++ flat_map (cons dot) ls) with (join_dots (l :: ls)).
    rewrite split_join.
    + simpl. rewrite Hl, Hls. reflexivity.
    + simpl. rewrite (label_no_dot _ Hl). simpl.
      apply forallb_forall. intros x Hx. apply label_no_dot.
      rewrite forallb_forall in Hls. apply Hls. exact Hx.
  - intro H. rewrite <- (join_split s).
    destruct (split_on dot s) as [| l ls] eqn:E.
    + exfalso. exact (split_on_nonempty s E).
    + simpl in H. apply andb_true_iff in H as [Hl Hls]. simpl.
      apply L_cat; [apply label_lang; exact Hl | apply more_labels_intro; exact Hls].
Qed.

Lemma domain_pattern_matches (s : list ascii) :
  matches domain_pattern s = forallb (label_ok is_lower_alnum) (split_on dot s).
Proof.
  apply eq_true_iff_eq. rewrite matches_lang. apply domain_pattern_lang.
Qed.

(** Away from a trailing newline the anchored match is the plain one. *)
Lemma match_anchored_plain (r : regex) (s : string) :
  ends_with_newline s = false ->
  match_anchored r s = matches r (list_ascii_of_string s).
Proof.
  unfold ends_with_newline, match_anchored. cbv zeta.
  destruct (rev (list_ascii_of_string s)) as [| c rest].
  - intros _. apply orb_false_r.
  - intros ->. simpl. apply orb_false_r.
Qed.

End DomainFacts.

(** ** Version formats *)

Module VersionFacts.
Import Sample.

(** C1.  [validate_upgradeable_to_format] is meant to reject every minor
    version below 14, but its pattern [(1[4-9]|[1-9][0-9])] lets the
    minors 10 to 13 through: on "4.10.5" and on "4.13.0", which do not
    have the shape with minor between 14 and 99, the validator returns
    without raising. *)
Theorem validate_upgradeable_to_format_accepts_minor_10 :
  Shape.upgrade_target_shape "4.10.5" = false /\
  fst (run validate_upgradeable_to_format (upgrade_target "4.10.5")) = Return tt /\
  Shape.upgrade_target_shape "4.13.0" = false /\
  fst (run validate_upgradeable_to_format (upgrade_target "4.13.0")) = Return tt.
Proof. repeat split; vm_compute; reflexivity. Qed.

(** The examples of the specification that the code does follow: minor 14
    passes, a one-digit minor is rejected for an upgrade target and
    accepted for a plain version, major 3 is rejected. *)
Lemma version_format_examples :
  fst (run validate_upgradeable_to_format (upgrade_target "4.14.5")) = Return tt /\
  fst (run validate_upgradeable_to_format (upgrade_target "4.1.5")) =
    Raise (InvalidArgumentValueError "--upgradeable-to format is invalid") /\
  fst (run validate_version_format (with_version (Some "4.1.5") blank)) = Return tt /\
  fst (run validate_version_format (with_version (Some "4.10.5") blank)) = Return tt /\
  fst (run validate_version_format (with_version (Some "3.10.5") blank)) =
    Raise (InvalidArgumentValueError "--version is invalid").
Proof. repeat split; vm_compute; reflexivity. Qed.

(** An empty upgrade target counts as absent. *)
Lemma validate_upgradeable_to_format_empty :
  fst (run validate_upgradeable_to_format (upgrade_target EmptyString)) = Return tt.
Proof. reflexivity. Qed.

End VersionFacts.

(** ** Scalar bounds *)

Module WorkerCountFacts.
Import Sample.

(** What the code does on every worker count: it raises exactly on the
    counts below 3 other than 0, and never touches the state. *)
Lemma validate_worker_count_cases (n : namespace) (log : list string) :
  validate_worker_count (mk_world n log) =
  (match worker_count n with
   | None => Return tt
   | Some count =>
       if ((count <? 3) && negb (count =? 0))%Z
       then Raise (InvalidArgumentValueError
                     "--worker-count must be greater than or equal to 3")
       else Return tt
   end, mk_world n log).
Proof.
  unfold validate_worker_count, bind, read_ns. simpl.
  destruct (worker_count n) as [count |]; [| reflexivity].
  destruct (count =? 0)%Z eqn:E0.
  - rewrite andb_false_r. reflexivity.
  - rewrite andb_true_r. unfold raise_if. destruct (count <? 3)%Z; reflexivity.
Qed.

(** C2.  With [worker_count] present and equal to 0 the validator returns
    without raising, although 0 is below the minimum of 3 that its own
    message announces; 1 and 2 are rejected and 3 passes. *)
Theorem validate_worker_count_accepts_zero :
  fst (run validate_worker_count (with_worker_count (Some 0%Z) blank)) = Return tt /\
  fst (run validate_worker_count (with_worker_count (Some 1%Z) blank)) =
    Raise (InvalidArgumentValueError "--worker-count must be greater than or equal to 3") /\
  fst (run validate_worker_count (with_worker_count (Some 2%Z) blank)) =
    Raise (InvalidArgumentValueError "--worker-count must be greater than or equal to 3") /\
  fst (run validate_worker_count (with_worker_count (Some 3%Z) blank)) = Return tt.
Proof. repeat split; reflexivity. Qed.

End WorkerCountFacts.

(** ** Managed identity against client id *)

Module ManagedIdentityFacts.
Import Sample.

Section AnyRuntime.
Context {rt : Runtime}.

(** [validate_client_id] reports the clash as a mutually-exclusive error. *)
Lemma validate_client_id_mutually_exclusive
    (isCreate : bool) (n : namespace) (log : list string) (cid : string) :
  enable_managed_identity n = HasAttr (Some true) ->
  client_id n = Some cid ->
  validate_client_id isCreate (mk_world n log) =
  (Raise (MutuallyExclusiveArgumentError
            "Must not specify --client-id when --enable-managed-identity is True"),
   mk_world n log).
Proof.
  intros He Hc. unfold validate_client_id, bind, read_ns. simpl.
  rewrite Hc, He. reflexivity.
Qed.

End AnyRuntime.

(** [validate_enable_managed_identity] reports the same clash as an
    invalid value. *)
Lemma validate_enable_managed_identity_invalid_value
    (n : namespace) (log : list string) (cid : string) :
  enable_managed_identity n = HasAttr (Some true) ->
  client_id n = Some cid ->
  validate_enable_managed_identity (mk_world n log) =
  (Raise (InvalidArgumentValueError
            "Must not specify --client-id when --enable-managed-identity is True"),
   mk_world n log).
Proof.
  intros He Hc. unfold validate_enable_managed_identity, bind, read_ns. simpl.
  rewrite He. simpl. rewrite Hc. reflexivity.
Qed.

(** C3.  On a namespace with [enable_managed_identity=True] and a client
    id, [validate_client_id] raises [MutuallyExclusiveArgumentError] but
    [validate_enable_managed_identity] raises [InvalidArgumentValueError]
    with the same message: the error kind depends on the validator. *)
Theorem managed_identity_client_id_error_kinds :
  fst (run (validate_client_id (rt := one_file) true) both_set) =
    Raise (MutuallyExclusiveArgumentError
             "Must not specify --client-id when --enable-managed-identity is True") /\
  fst (run (validate_client_id (rt := one_file) false) both_set) =
    Raise (MutuallyExclusiveArgumentError
             "Must not specify --client-id when --enable-managed-identity is True") /\
  fst (run validate_enable_managed_identity both_set) =
    Raise (InvalidArgumentValueError
             "Must not specify --client-id when --enable-managed-identity is True").
Proof. repeat split; reflexivity. Qed.

End ManagedIdentityFacts.

(** ** Visibility and outbound type *)

Module VisibilityFacts.
Import Sample.

(** C9.  [validate_visibility(key)] never changes the state, whether it
    returns or raises: the capitalised value only lives in a local
    variable.  A namespace whose ingress visibility is "private" is
    accepted and still holds "private" afterwards, which is neither
    "Private" nor, for [is_visibility_public], public; the same holds for
    a lower-case "public". *)
Theorem validate_visibility_never_mutates :
  (forall (key : string) (w : world), snd (validate_visibility key w) = w) /\
  (forall (n : namespace) (log : list string),
     let n' := set_ingress_visibility (Some "private") n in
     validate_visibility "ingress_visibility" (mk_world n' log) = (Return tt, mk_world n' log) /\
     ingress_visibility n' = Some "private" /\
     opt_eqb (ingress_visibility n') (Some "Private") = false /\
     is_visibility_public (ingress_visibility n') = false) /\
  (forall (n : namespace) (log : list string),
     let n' := set_apiserver_visibility (Some "public") n in
     validate_visibility "apiserver_visibility" (mk_world n' log) = (Return tt, mk_world n' log) /\
     is_visibility_public (apiserver_visibility n') = false).
Proof.
  split; [| split].
  - intros key w. unfold validate_visibility, bind, read_ns. simpl.
    destruct (getattr (ns w) key) as [| [v |]]; simpl; try reflexivity.
    unfold raise_if. destruct (negb _); reflexivity.
  - intros n log. simpl. repeat split.
  - intros n log. simpl. repeat split.
Qed.

(** C5, as stated, fails: with outbound type "UserDefinedRouting" the
    validator passes although the visibilities are not both "Private",
    with both set to the lower-case "public" and also with an ingress
    visibility "Internal". *)
Lemma validate_outbound_type_passes_without_private :
  fst (run validate_outbound_type (routed (Some "public") (Some "public"))) = Return tt /\
  ingress_visibility (routed (Some "public") (Some "public")) <> Some "Private" /\
  apiserver_visibility (routed (Some "public") (Some "public")) <> Some "Private" /\
  fst (run validate_outbound_type (routed (Some "Internal") (Some "Private"))) = Return tt /\
  ingress_visibility (routed (Some "Internal") (Some "Private")) <> Some "Private".
Proof. repeat split; try reflexivity; discriminate. Qed.

Lemma opt_eqb_eq (a b : option string) : opt_eqb a b = true <-> a = b.
Proof.
  destruct a as [x |], b as [y |]; simpl; split; intro H; try discriminate; try reflexivity.
  - apply String.eqb_eq in H. congruence.
  - injection H as ->. apply String.eqb_refl.
Qed.

Lemma opt_eqb_neq (a b : option string) : opt_eqb a b = false <-> a <> b.
Proof.
  rewrite <- opt_eqb_eq. destruct (opt_eqb a b); split; intro H; try discriminate; auto.
  exfalso; apply H; reflexivity.
Qed.

Lemma is_visibility_public_iff (v : option string) :
  is_visibility_public v = true <-> v = None \/ v = Some "Public".
Proof.
  unfold is_visibility_public. rewrite orb_true_iff, opt_eqb_eq.
  destruct v; simpl; split; intros [H | H]; auto; discriminate.
Qed.

(** C5, amended.  [validate_outbound_type] never changes the state; it
    raises [InvalidArgumentValueError] when the outbound type is none of
    "UserDefinedRouting", "Loadbalancer" and [None]; with
    "UserDefinedRouting" it raises [InvalidArgumentValueError] when the
    ingress or the apiserver visibility is unset or the string "Public",
    and passes when both are set to strings other than "Public" (so in
    particular when both are "Private"); with "Loadbalancer" or no
    outbound type it passes. *)
Theorem validate_outbound_type_cases (n : namespace) (log : list string) :
  snd (validate_outbound_type (mk_world n log)) = mk_world n log /\
  (outbound_type n <> udr -> outbound_type n <> Some "Loadbalancer" ->
   outbound_type n <> None ->
   fst (validate_outbound_type (mk_world n log)) = Raise bad_outbound_type) /\
  (outbound_type n = udr ->
   (ingress_visibility n = None \/ ingress_visibility n = Some "Public") \/
   (apiserver_visibility n = None \/ apiserver_visibility n = Some "Public") ->
   fst (validate_outbound_type (mk_world n log)) = Raise public_with_udr) /\
  (outbound_type n = udr ->
   forall i a : string,
     ingress_visibility n = Some i -> apiserver_visibility n = Some a ->
     i <> "Public" -> a <> "Public" ->
     fst (validate_outbound_type (mk_world n log)) = Return tt) /\
  (outbound_type n = Some "Loadbalancer" \/ outbound_type n = None ->
   fst (validate_outbound_type (mk_world n log)) = Return tt).
Proof.
  unfold validate_outbound_type, bind, read_ns, read_attr, getattr, ret. simpl.
  repeat split.
  - unfold raise_if. destruct (negb _); simpl; [reflexivity |].
    destruct (_ && _); reflexivity.
  - intros H1 H2 H3. apply opt_eqb_neq in H1, H2, H3. unfold udr in H1.
    rewrite H1, H2, H3. reflexivity.
  - intros H1 H2. rewrite H1. simpl.
    assert (Hp : is_visibility_public (ingress_visibility n) ||
                 is_visibility_public (apiserver_visibility n) = true).
    { apply orb_true_iff. rewrite !is_visibility_public_iff. exact H2. }
    rewrite Hp. reflexivity.
  - intros H1 i a Hi Ha Hin Han. rewrite H1, Hi, Ha. simpl.
    unfold is_visibility_public. simpl.
    apply String.eqb_neq in Hin, Han. rewrite Hin, Han. reflexivity.
  - intros [H | H]; rewrite H; reflexivity.
Qed.

Lemma validate_outbound_type_cases_witness :
  fst (validate_outbound_type (mk_world (set_outbound_type (Some "NAT") blank) [])) =
    Raise bad_outbound_type /\
  fst (validate_outbound_type (mk_world (routed (Some "Private") None) [])) =
    Raise public_with_udr /\
  fst (validate_outbound_type (mk_world (routed (Some "Private") (Some "Private")) [])) =
    Return tt /\
  fst (validate_outbound_type (mk_world blank [])) = Return tt.
Proof.
  split; [| split; [| split]].
  - apply (validate_outbound_type_cases (set_outbound_type (Some "NAT") blank) []);
      discriminate.
  - apply (validate_outbound_type_cases (routed (Some "Private") None) []);
      [reflexivity | right; left; reflexivity].
  - apply (proj1 (proj2 (proj2 (proj2
             (validate_outbound_type_cases (routed (Some "Private") (Some "Private")) []))))
             eq_refl "Private" "Private"); try reflexivity; discriminate.
  - apply (validate_outbound_type_cases blank []). right. reflexivity.
Defined.

End VisibilityFacts.

(** ** Domain *)

Module DomainClaims.
Import Sample.

(** C4, as stated, fails in both directions: "Example.com" is a sequence
    of labels of alphanumeric characters and is rejected, because the
    pattern only has lower-case letters; and "example.com" followed by a
    newline is not a sequence of labels and is accepted, because [$] also
    matches before a final newline. *)
Lemma validate_domain_not_exactly_alnum_labels :
  Shape.label_sequence Shape.is_alnum "Example.com" = true /\
  fst (run validate_domain (with_domain (Some "Example.com") blank)) =
    Raise (invalid_domain "Example.com") /\
  Shape.label_sequence Shape.is_alnum (trailing_newline "example.com") = false /\
  fst (run validate_domain (with_domain (Some (trailing_newline "example.com")) blank)) =
    Return tt.
Proof. repeat split; vm_compute; reflexivity. Qed.

(** C4, amended.  For every present domain string that does not end in a
    newline, [validate_domain] passes exactly when the string is a
    dot-separated sequence of labels, each 1 to 63 characters long and
    made of lower-case ASCII letters, digits and hyphens, with hyphens
    only in internal positions; any other such string raises
    [InvalidArgumentValueError] with the message naming [--domain] and the
    value.  The state is never changed. *)
Theorem validate_domain_lower_case_labels (n : namespace) (log : list string) (d : string) :
  domain n = Some d ->
  Shape.ends_with_newline d = false ->
  validate_domain (mk_world n log) =
  (if Shape.label_sequence Shape.is_lower_alnum d
   then Return tt
   else Raise (invalid_domain d),
   mk_world n log).
Proof.
  intros Hd Hnl. unfold validate_domain, bind, read_ns. simpl. rewrite Hd.
  rewrite (DomainFacts.match_anchored_plain _ _ Hnl).
  rewrite DomainFacts.domain_pattern_matches.
  unfold Shape.label_sequence. change DomainShape.dot with "."%char.
  destruct (forallb _ _); reflexivity.
Qed.

Lemma validate_domain_lower_case_labels_witness :
  validate_domain (mk_world (with_domain (Some "my-cluster.example.com") blank) []) =
    (Return tt, mk_world (with_domain (Some "my-cluster.example.com") blank) []) /\
  validate_domain (mk_world (with_domain (Some "-bad.example.com") blank) []) =
    (Raise (invalid_domain "-bad.example.com"),
     mk_world (with_domain (Some "-bad.example.com") blank) []).
Proof.
  split.
  - exact (validate_domain_lower_case_labels
             (with_domain (Some "my-cluster.example.com") blank) [] eq_refl eq_refl).
  - exact (validate_domain_lower_case_labels
             (with_domain (Some "-bad.example.com") blank) [] eq_refl eq_refl).
Defined.

End DomainClaims.

(** ** Pull secret *)

Module PullSecretFacts.
Import Sample.

(** [rstrip_newline] removes the trailing newlines and nothing else. *)
Lemma rstrip_newline_spec (s : string) :
  (exists k, s = PyStr.rstrip_newline s ++ newlines k) /\
  Shape.ends_with_newline (PyStr.rstrip_newline s) = false.
Proof.
  induction s as [| c s [[k IHk] IHe]]; simpl.
  - split; [exists 0; reflexivity | reflexivity].
  - destruct (PyStr.rstrip_newline s) as [| c' t] eqn:E.
    + destruct (Ascii.eqb_spec c Re.newline) as [-> | Hne].
      * split; [| reflexivity]. exists (S k). simpl in IHk. rewrite IHk at 1. reflexivity.
      * split.
        -- exists k. simpl in IHk |- *. rewrite IHk at 1. reflexivity.
        -- unfold Shape.ends_with_newline. simpl.
           apply Ascii.eqb_neq. exact Hne.
    + split.
      * exists k. simpl. f_equal. simpl in IHk. exact IHk.
      * unfold Shape.ends_with_newline in IHe |- *.
        change (list_ascii_of_string (String c (String c' t)))
          with (c :: list_ascii_of_string (String c' t)).
        simpl rev in IHe |- *.
        destruct (rev (list_ascii_of_string t) ++ [c'])%list as [| x rest] eqn:R.
        -- destruct (rev (list_ascii_of_string t)); discriminate.
        -- simpl. exact IHe.
Qed.

Section AnyRuntime.
Context {rt : Runtime}.

(** C6.  Without a pull secret the validator logs one warning and returns,
    leaving the namespace as it is.  With a pull secret that names a
    readable file, the namespace value is replaced by the file's contents
    without its trailing newlines, whatever the verdict; with one that
    names nothing, the value is kept.  In both cases the validator returns
    exactly when the resulting text is a JSON object and raises
    [InvalidArgumentValueError] otherwise (parse failure or another JSON
    value); a path that exists and cannot be read raises the same error. *)
Theorem validate_pull_secret_cases (n : namespace) (log : list string) :
  (pull_secret n = None ->
   validate_pull_secret (mk_world n log) =
     (Return tt, mk_world n (log ++ [missing_pull_secret]))) /\
  (forall path contents : string,
     pull_secret n = Some path -> file_system path = TextFile contents ->
     validate_pull_secret (mk_world n log) =
       (verdict (PyStr.rstrip_newline contents),
        mk_world (set_pull_secret (Some (PyStr.rstrip_newline contents)) n) log)) /\
  (forall path : string,
     pull_secret n = Some path -> file_system path = NoEntry ->
     validate_pull_secret (mk_world n log) = (verdict path, mk_world n log)) /\
  (forall path : string,
     pull_secret n = Some path -> file_system path = Unreadable ->
     validate_pull_secret (mk_world n log) = (Raise invalid_pull_secret, mk_world n log)).
Proof.
  unfold validate_pull_secret, bind, read_ns, try_except, verdict, is_json_object.
  simpl. repeat split.
  - intros Hp. rewrite Hp. reflexivity.
  - intros path contents Hp Hf. rewrite Hp. simpl. rewrite Hf. simpl.
    destruct (json_loads (PyStr.rstrip_newline contents)) as [[|] |]; reflexivity.
  - intros path Hp Hf. rewrite Hp. simpl. rewrite Hf. simpl. rewrite Hp.
    destruct (json_loads path) as [[|] |]; reflexivity.
  - intros path Hp Hf. rewrite Hp. simpl. rewrite Hf. reflexivity.
Qed.

End AnyRuntime.

Lemma validate_pull_secret_cases_witness :
  validate_pull_secret (rt := one_file) (mk_world blank []) =
    (Return tt, mk_world blank [missing_pull_secret]) /\
  validate_pull_secret (rt := one_file) (mk_world from_file []) =
    (Return tt, mk_world (inline secret_text) []) /\
  validate_pull_secret (rt := one_file) (mk_world (inline "[1]") []) =
    (Raise invalid_pull_secret, mk_world (inline "[1]") []) /\
  validate_pull_secret (rt := one_file) (mk_world (inline "not json") []) =
    (Raise invalid_pull_secret, mk_world (inline "not json") []).
Proof.
  split; [| split; [| split]].
  - exact (proj1 (validate_pull_secret_cases (rt := one_file) blank []) eq_refl).
  - exact (proj1 (proj2 (validate_pull_secret_cases (rt := one_file) from_file []))
             secret_path _ eq_refl eq_refl).
  - exact (proj1 (proj2 (proj2 (validate_pull_secret_cases (rt := one_file) (inline "[1]") [])))
             "[1]" eq_refl eq_refl).
  - exact (proj1 (proj2 (proj2 (validate_pull_secret_cases (rt := one_file)
                                  (inline "not json") [])))
             "not json" eq_refl eq_refl).
Defined.

End PullSecretFacts.

(** ** Subnets *)

Module SubnetFacts.
Import Sample.

Ltac case_step :=
  match goal with
  | |- context [match ?o with Some _ => _ | None => _ end] => destruct o eqn:?
  | |- context [if ?b then _ else _] => destruct b eqn:?
  end; simpl.

Lemma getattr_setattr (n n' : namespace) (key : string) (x v : option string) :
  getattr n key = HasAttr x -> getattr (setattr key v n') key = HasAttr v.
Proof.
  unfold getattr, setattr.
  destruct (key =? "master_subnet"); [reflexivity |].
  destruct (key =? "worker_subnet"); [reflexivity |].
  destruct (key =? "apiserver_visibility"); [reflexivity |].
  destruct (key =? "ingress_visibility"); [reflexivity |].
  destruct (key =? "outbound_type"); [reflexivity | discriminate].
Qed.

Lemma setattr_keeps_vnet (n : namespace) (key : string) (v : option string) :
  vnet (setattr key v n) = vnet n /\
  vnet_resource_group_name (setattr key v n) = vnet_resource_group_name n.
Proof.
  unfold setattr.
  destruct (key =? "master_subnet"); [split; reflexivity |].
  destruct (key =? "worker_subnet"); [split; reflexivity |].
  destruct (key =? "apiserver_visibility"); [split; reflexivity |].
  destruct (key =? "ingress_visibility"); [split; reflexivity |].
  destruct (key =? "outbound_type"); split; reflexivity.
Qed.

Section AnyResourceIds.
Context {ids : ResourceIds}.

Lemma check_subnet_parts_frame (key : string) (cmd : command) (subnet : string) (w : world) :
  snd (check_subnet_parts key cmd subnet w) = w.
Proof.
  unfold check_subnet_parts, bind, subscript, raise_if, ret, raise. simpl.
  repeat case_step; reflexivity.
Qed.

Lemma check_subnet_parts_returns
    (key : string) (cmd : command) (subnet : string) (w w' : world) (p : parts) :
  check_subnet_parts key cmd subnet w = (Return p, w') -> p = parse_resource_id subnet.
Proof.
  unfold check_subnet_parts, bind, subscript, raise_if, ret, raise. simpl.
  repeat case_step; intro H; try discriminate. injection H as <- _. reflexivity.
Qed.

Lemma fetch_subnet_frame (key : string) (cmd : command) (subnet : string) (p : parts) (w : world) :
  snd (fetch_subnet key cmd subnet p w) = w.
Proof.
  unfold fetch_subnet, try_except, bind, subscript, ret, raise. simpl.
  repeat case_step; reflexivity.
Qed.

(** Only the first stage writes to the state. *)
Lemma validate_subnet_state (key : string) (cmd : command) (w : world) :
  snd (validate_subnet key cmd w) = snd (resolve_subnet key cmd w).
Proof.
  unfold validate_subnet, bind.
  destruct (resolve_subnet key cmd w) as [[subnet | e] w1]; [| reflexivity].
  pose proof (check_subnet_parts_frame key cmd subnet w1) as Hc.
  destruct (check_subnet_parts key cmd subnet w1) as [[p | e] w2]; simpl in Hc; subst w2.
  - apply fetch_subnet_frame.
  - reflexivity.
Qed.

Lemma validate_vnet_frame_log (cmd : command) (w : world) :
  warnings (snd (validate_vnet cmd w)) = warnings w /\
  exists u, fst (validate_vnet cmd w) = Return u.
Proof.
  unfold validate_vnet, validate_vnet_resource_group_name, bind, read_ns, modify_ns, ret.
  simpl. repeat case_step; split; try reflexivity; eauto.
Qed.

(** When the first stage returns, the namespace holds the id it returns. *)
Lemma resolve_subnet_returns (key : string) (cmd : command) (w w' : world) (subnet : string) :
  resolve_subnet key cmd w = (Return subnet, w') ->
  getattr (ns w') key = HasAttr (Some subnet).
Proof.
  unfold resolve_subnet, bind, read_ns, read_attr. simpl.
  destruct (getattr (ns w) key) as [| given] eqn:G; simpl; [discriminate |].
  destruct (negb (is_valid_resource_id_opt given)) eqn:V.
  - unfold raise_if. destruct (negb (PyStr.truthy_opt (vnet (ns w)))); simpl; [discriminate |].
    destruct (validate_vnet cmd w) as [[u | e] w1]; [| discriminate].
    unfold subnet_under_vnet.
    destruct (vnet (ns w1)) as [v |]; simpl; [| discriminate].
    destruct given as [s |]; simpl; [| discriminate].
    intro H. injection H as <- <-. simpl. eapply getattr_setattr. exact G.
  - destruct given as [s |]; simpl; [| discriminate].
    intro H. injection H as <- <-. exact G.
Qed.

(** C7.  Suppose the local stages of [validate_subnet(key)] pass, that is,
    the validator returns when the remote lookup succeeds.  Then, whatever
    the remote lookup does, the validator ends in the same state, with the
    subnet id in the namespace, and its outcome is decided by the lookup
    alone: it returns when the lookup returns, raises
    [InvalidArgumentValueError] when the lookup raises
    [ResourceNotFoundError], and raises [CLIInternalError] with the
    original message appended when the lookup raises anything else.  No
    failure of the lookup lets the validator return. *)
Theorem validate_subnet_remote_failures
    (key sub : string) (remote : string -> string -> string -> option error) (w w' : world) :
  validate_subnet key (mk_command sub (fun _ _ _ => None)) w = (Return tt, w') ->
  exists subnet name vnet_name group : string,
    getattr (ns w') key = HasAttr (Some subnet) /\
    p_child_name_1 (parse_resource_id subnet) = Some name /\
    p_name (parse_resource_id subnet) = Some vnet_name /\
    p_resource_group (parse_resource_id subnet) = Some group /\
    validate_subnet key (mk_command sub remote) w =
      (match remote name vnet_name group with
       | None => Return tt
       | Some (ResourceNotFoundError msg) =>
           Raise (InvalidArgumentValueError
                    ("Invalid --" ++ PyStr.replace "_" "-" key ++
                     ", error when getting '" ++ subnet ++ "': " ++ msg))
       | Some err =>
           Raise (CLIInternalError
                    ("Unexpected error when getting subnet '" ++ subnet ++ "': " ++
                     str_of_error err))
       end, w').
Proof.
  intro H. unfold validate_subnet, bind in *.
  change (resolve_subnet key (mk_command sub remote))
    with (resolve_subnet key (mk_command sub (fun _ _ _ => None))).
  destruct (resolve_subnet key (mk_command sub (fun _ _ _ => None)) w)
    as [[subnet | e] w1] eqn:R; [| discriminate].
  change (check_subnet_parts key (mk_command sub remote) subnet)
    with (check_subnet_parts key (mk_command sub (fun _ _ _ => None)) subnet).
  pose proof (check_subnet_parts_frame key (mk_command sub (fun _ _ _ => None)) subnet w1) as Hc.
  destruct (check_subnet_parts key (mk_command sub (fun _ _ _ => None)) subnet w1)
    as [[p | e] w2] eqn:C; [| discriminate].
  simpl in Hc. subst w2. apply check_subnet_parts_returns in C. subst p.
  apply resolve_subnet_returns in R.
  unfold fetch_subnet, try_except, bind, subscript, ret, raise in *. simpl in *.
  destruct (p_child_name_1 (parse_resource_id subnet)) as [name |] eqn:E1; [| discriminate].
  destruct (p_name (parse_resource_id subnet)) as [vnet_name |] eqn:E2; [| discriminate].
  destruct (p_resource_group (parse_resource_id subnet)) as [group |] eqn:E3; [| discriminate].
  injection H as <-.
  exists subnet, name, vnet_name, group.
  split; [exact R |]. split; [exact E1 |]. split; [exact E2 |].
  split; [exact E3 |].
  destruct (remote name vnet_name group) as [[] |]; reflexivity.
Qed.

(** C10.  When the value under [key] is a short name [s] (not a resource
    id) and a vnet [v] is given, [validate_subnet(key)] always ends, also
    when it raises, in a namespace where the vnet resource group has been
    defaulted to the cluster's, the vnet is a resource id (built from the
    subscription and that group when [v] was a name) and the value under
    [key] is that vnet id followed by [/subnets/] and [s]: the rewriting
    happens before every check on the id and before the remote lookup. *)
Theorem validate_subnet_rewrites_before_checks
    (key : string) (cmd : command) (n : namespace) (log : list string) (s v : string) :
  getattr n key = HasAttr (Some s) ->
  is_valid_resource_id s = false ->
  vnet n = Some v ->
  PyStr.truthy v = true ->
  let group :=
    if PyStr.truthy_opt (vnet_resource_group_name n)
    then vnet_resource_group_name n else resource_group_name n in
  let vnet_id :=
    if is_valid_resource_id v then v
    else resource_id (subscription_id cmd) group "Microsoft.Network" "virtualNetworks" v in
  let w' := snd (validate_subnet key cmd (mk_world n log)) in
  getattr (ns w') key = HasAttr (Some (vnet_id ++ "/subnets/" ++ s)) /\
  vnet (ns w') = Some vnet_id /\
  vnet_resource_group_name (ns w') = group.
Proof.
  intros G Hs Hv Ht. cbv zeta. rewrite validate_subnet_state.
  unfold resolve_subnet, validate_vnet, validate_vnet_resource_group_name,
    bind, read_ns, read_attr, modify_ns, raise_if, ret. simpl.
  rewrite G. simpl. rewrite Hs. simpl. rewrite Hv. simpl. rewrite Ht. simpl.
  destruct (PyStr.truthy_opt (vnet_resource_group_name n)) eqn:Hg; simpl;
    rewrite Hv; simpl; rewrite Ht; simpl;
    destruct (is_valid_resource_id v) eqn:Hvalid; simpl;
    rewrite ?Hv; simpl;
    (split; [eapply getattr_setattr; exact G |]);
    rewrite (proj1 (setattr_keeps_vnet _ _ _)), (proj2 (setattr_keeps_vnet _ _ _));
    simpl; auto.
Qed.

End AnyResourceIds.

End SubnetFacts.

Module SubnetExamples.
Import Sample SubnetFacts.

Lemma validate_subnet_examples :
  validate_subnet (ids := plain_ids) "master_subnet" (context None) (mk_world short_names []) =
    (Return tt, mk_world full_ids []) /\
  validate_subnet (ids := plain_ids) "master_subnet" (context (Some gone))
      (mk_world short_names []) =
    (Raise (InvalidArgumentValueError
              ("Invalid --master-subnet, error when getting '" ++ vnet1 ++
               "/subnets/master': subnet not found")),
     mk_world full_ids []) /\
  validate_subnet (ids := plain_ids) "master_subnet" (context (Some boom))
      (mk_world short_names []) =
    (Raise (CLIInternalError
              ("Unexpected error when getting subnet '" ++ vnet1 ++
               "/subnets/master': connection reset")),
     mk_world full_ids []) /\
  validate_subnet (ids := plain_ids) "master_subnet" (context None)
      (mk_world (set_vnet (Some vnet9) short_names) []) =
    (Raise (InvalidArgumentValueError
              "--master-subnet subscription 'sub-9' must equal cluster subscription."),
     mk_world (set_master_subnet (Some (vnet9 ++ "/subnets/master"))
                 (set_vnet (Some vnet9)
                    (set_vnet_resource_group_name (Some "rg1")
                       (with_resource_group_name (Some "rg1") blank)))) []).
Proof. repeat split; vm_compute; reflexivity. Qed.

Lemma validate_subnet_remote_failures_witness :
  validate_subnet (ids := plain_ids) "master_subnet" (mk_command "sub-1" (fun _ _ _ => None))
    (mk_world short_names []) = (Return tt, mk_world full_ids []) /\
  exists subnet name vnet_name group : string,
    getattr full_ids "master_subnet" = HasAttr (Some subnet) /\
    p_child_name_1 (parse_plain subnet) = Some name /\
    p_name (parse_plain subnet) = Some vnet_name /\
    p_resource_group (parse_plain subnet) = Some group /\
    validate_subnet (ids := plain_ids) "master_subnet"
      (mk_command "sub-1" (fun _ _ _ => Some boom)) (mk_world short_names []) =
    (Raise (CLIInternalError
              ("Unexpected error when getting subnet '" ++ subnet ++ "': " ++
               str_of_error boom)),
     mk_world full_ids []).
Proof.
  split.
  - vm_compute. reflexivity.
  - apply (validate_subnet_remote_failures (ids := plain_ids) "master_subnet" "sub-1"
             (fun _ _ _ => Some boom) (mk_world short_names [])
             (w' := mk_world full_ids [])).
    vm_compute. reflexivity.
Defined.

Lemma validate_subnet_rewrites_before_checks_witness :
  fst (validate_subnet (ids := plain_ids) "master_subnet" (context (Some boom))
         (mk_world short_names [])) =
    Raise (CLIInternalError
             ("Unexpected error when getting subnet '" ++ vnet1 ++
              "/subnets/master': connection reset")) /\
  let w' := snd (validate_subnet (ids := plain_ids) "master_subnet" (context (Some boom))
                   (mk_world short_names [])) in
  getattr (ns w') "master_subnet" = HasAttr (Some (vnet1 ++ "/subnets/master")) /\
  vnet (ns w') = Some vnet1 /\
  vnet_resource_group_name (ns w') = Some "rg1".
Proof.
  split.
  - vm_compute. reflexivity.
  - exact (validate_subnet_rewrites_before_checks (ids := plain_ids) "master_subnet"
             (context (Some boom)) short_names [] (s := "master") (v := "vnet1")
             eq_refl eq_refl eq_refl eq_refl).
Defined.

End SubnetExamples.

(** ** Platform workload identities *)

Module CounterFacts.
Import IdentityShape.
Local Open Scope list_scope.

Lemma counter_add_get (counter : list (string * nat)) (n x : string) :
  counter_get (counter_add n counter) x =
  if n =? x then S (counter_get counter x) else counter_get counter x.
Proof.
  induction counter as [| [k c] rest IH]; simpl.
  - reflexivity.
  - destruct (String.eqb_spec k n) as [-> | Hkn]; simpl.
    + destruct (n =? x); reflexivity.
    + rewrite IH. destruct (String.eqb_spec n x) as [-> | Hnx]; [| reflexivity].
      destruct (String.eqb_spec k x) as [-> | _]; [contradiction | reflexivity].
Qed.

Lemma counter_update_get (names : list string) :
  forall (counter : list (string * nat)) (x : string),
    counter_get (counter_update counter names) x =
    counter_get counter x + count_occ string_dec names x.
Proof.
  unfold counter_update.
  induction names as [| n names IH]; intros counter x; simpl.
  - lia.
  - rewrite IH, counter_add_get.
    destruct (string_dec n x) as [-> | Hne].
    + rewrite String.eqb_refl. lia.
    + apply String.eqb_neq in Hne. rewrite Hne. reflexivity.
Qed.

Lemma counter_add_keys (counter : list (string * nat)) (n x : string) :
  In x (map fst (counter_add n counter)) <-> x = n \/ In x (map fst counter).
Proof.
  induction counter as [| [k c] rest IH]; simpl.
  - split; intros [H | H]; auto; contradiction.
  - destruct (String.eqb_spec k n) as [-> | Hkn]; simpl.
    + split; [intros [H | H] | intros [H | [H | H]]]; auto.
    + rewrite IH. split; [intros [H | [H | H]] | intros [H | [H | H]]]; auto.
Qed.

Lemma counter_add_well_formed (counter : list (string * nat)) (n : string) :
  well_formed counter -> well_formed (counter_add n counter).
Proof.
  unfold well_formed. induction counter as [| [k c] rest IH]; simpl; intro H.
  - constructor; [intros [] | constructor].
  - inversion H as [| ? ? Hnotin Hrest]; subst.
    destruct (String.eqb_spec k n) as [-> | Hkn]; simpl.
    + constructor; assumption.
    + constructor; [| apply IH; assumption].
      rewrite counter_add_keys. intros [-> | Hin]; contradiction.
Qed.

Lemma counter_update_well_formed (names : list string) :
  forall counter, well_formed counter -> well_formed (counter_update counter names).
Proof.
  unfold counter_update. induction names as [| n names IH]; intros counter H; simpl.
  - exact H.
  - apply IH, counter_add_well_formed, H.
Qed.

Lemma counter_get_in (counter : list (string * nat)) (x : string) (c : nat) :
  well_formed counter -> In (x, c) counter -> counter_get counter x = c.
Proof.
  unfold well_formed. induction counter as [| [k v] rest IH]; simpl; intros Hwf Hin.
  - contradiction.
  - inversion Hwf as [| ? ? Hnotin Hrest]; subst.
    destruct Hin as [Heq | Hin].
    + injection Heq as -> ->. rewrite String.eqb_refl. reflexivity.
    + destruct (String.eqb_spec k x) as [-> | _].
      * exfalso. apply Hnotin. apply (in_map fst) in Hin. exact Hin.
      * apply IH; assumption.
Qed.

Lemma in_counter_get (counter : list (string * nat)) (x : string) :
  1 <= counter_get counter x -> In (x, counter_get counter x) counter.
Proof.
  induction counter as [| [k v] rest IH]; simpl; intro H.
  - lia.
  - destruct (String.eqb_spec k x) as [-> | _]; [left; reflexivity | right; apply IH, H].
Qed.

Lemma filter_keys_nodup (f : string * nat -> bool) (counter : list (string * nat)) :
  well_formed counter -> NoDup (map fst (filter f counter)).
Proof.
  unfold well_formed. induction counter as [| p rest IH]; simpl; intro H.
  - constructor.
  - inversion H as [| ? ? Hnotin Hrest]; subst. destruct (f p); simpl.
    + constructor; [| apply IH; assumption].
      intro Hin. apply Hnotin. apply in_map_iff in Hin as (q & Hq & Hin).
      apply filter_In in Hin as [Hin _]. rewrite <- Hq. apply in_map. exact Hin.
    + apply IH; assumption.
Qed.

(** The names the validator reports are exactly the names that occur at
    least twice, each reported once. *)
Lemma duplicate_names_spec (names : list string) :
  NoDup (duplicate_names names) /\
  forall x, In x (duplicate_names names) <-> 2 <= count_occ string_dec names x.
Proof.
  assert (Hwf : well_formed (counter_update [] names)).
  { apply counter_update_well_formed. constructor. }
  unfold duplicate_names. cbv zeta. split.
  - apply filter_keys_nodup, Hwf.
  - intro x. rewrite in_map_iff. split.
    + intros ([k c] & Hk & Hin). simpl in Hk. subst k.
      apply filter_In in Hin as [Hin Hc]. apply Nat.ltb_lt in Hc.
      apply (counter_get_in _ _ Hwf) in Hin.
      rewrite counter_update_get in Hin. simpl in Hin. lia.
    + intro H. exists (x, counter_get (counter_update [] names) x). split; [reflexivity |].
      apply filter_In. split.
      * apply in_counter_get. rewrite counter_update_get. simpl. lia.
      * apply Nat.ltb_lt. rewrite counter_update_get. simpl. lia.
Qed.

Lemma duplicate_names_nil (names : list string) :
  duplicate_names names = [] <-> NoDup names.
Proof.
  rewrite (NoDup_count_occ string_dec).
  destruct (duplicate_names_spec names) as [_ H]. split.
  - intros E x. specialize (H x). rewrite E in H. simpl in H.
    destruct (le_lt_dec 2 (count_occ string_dec names x)) as [Hge | Hlt]; [| lia].
    exfalso. apply H. exact Hge.
  - intro Hle. destruct (duplicate_names names) as [| d rest]; [reflexivity |].
    exfalso. specialize (Hle d). assert (Hd : 2 <= count_occ string_dec names d).
    { apply H. left. reflexivity. }
    lia.
Qed.

End CounterFacts.

Module IdentityFacts.
Import IdentityShape CounterFacts.
Local Open Scope list_scope.

Lemma set_platform_workload_identities_same (n : namespace) :
  set_platform_workload_identities (platform_workload_identities n) n = n.
Proof. destruct n. reflexivity. Qed.

Section Collaborators.
Context {ids : ResourceIds} {rt : Runtime}.

Lemma is_valid_identity_resource_id_kind (rid : string) (b : bool) (w : world) :
  identity_kind rid = Some b -> is_valid_identity_resource_id rid w = (Return b, w).
Proof.
  unfold identity_kind, is_valid_identity_resource_id, bind, subscript, ret.
  destruct (p_namespace (parse_resource_id rid)) as [provider |]; [| discriminate].
  simpl. destruct (provider =? "Microsoft.ManagedIdentity").
  - destruct (p_type (parse_resource_id rid)) as [type |]; [| discriminate].
    simpl. intro H. injection H as <-. reflexivity.
  - intro H. injection H as <-. reflexivity.
Qed.

Lemma normalize_identities_cons
    (cmd : command) (seen rest : list (string * identity)) (name : string) (i : identity) :
  normalize_identities cmd seen ((name, i) :: rest) =
  (n <- read_ns ;;
   identity' <-
     (if negb (is_valid_resource_id (identity_resource_id i)) then
        let identity' :=
          mk_identity (identity_name_to_resource_id cmd n (identity_resource_id i)) in
        modify_ns (set_platform_workload_identities
                     (Some (seen ++ (name, identity') :: rest))) ;;
        ret identity'
      else ret i) ;;
   valid <- is_valid_identity_resource_id (identity_resource_id identity') ;;
   raise_if (negb valid) (not_an_identity name identity') ;;
   normalize_identities cmd (seen ++ [(name, identity')]) rest)%py.
Proof. reflexivity. Qed.

Lemma identity_name_to_resource_id_set
    (cmd : command) (v : option (list (string * identity))) (n : namespace) (name : string) :
  identity_name_to_resource_id cmd (set_platform_workload_identities v n) name =
  identity_name_to_resource_id cmd n name.
Proof. reflexivity. Qed.

Lemma set_platform_workload_identities_twice
    (u v : option (list (string * identity))) (n : namespace) :
  set_platform_workload_identities u (set_platform_workload_identities v n) =
  set_platform_workload_identities u n.
Proof. reflexivity. Qed.

(** One turn of the loop, on an identity whose id has a provider and a
    type once visited. *)
Lemma normalize_identities_step
    (cmd : command) (n0 : namespace) (log : list string)
    (seen rest : list (string * identity)) (name : string) (i : identity) (b : bool) :
  identity_kind (identity_resource_id (normalized cmd n0 i)) = Some b ->
  normalize_identities cmd seen ((name, i) :: rest)
    (mk_world (set_platform_workload_identities (Some (seen ++ (name, i) :: rest)) n0) log) =
  if b then
    normalize_identities cmd (seen ++ [(name, normalized cmd n0 i)]) rest
      (mk_world (set_platform_workload_identities
                   (Some ((seen ++ [(name, normalized cmd n0 i)]) ++ rest)) n0) log)
  else
    (Raise (not_an_identity name (normalized cmd n0 i)),
     mk_world (set_platform_workload_identities
                 (Some (seen ++ (name, normalized cmd n0 i) :: rest)) n0) log).
Proof.
  intro K. rewrite <- (app_assoc seen [_] rest).
  change ([(name, normalized cmd n0 i)] ++ rest) with ((name, normalized cmd n0 i) :: rest).
  rewrite normalize_identities_cons. unfold normalized in *.
  destruct (is_valid_resource_id (identity_resource_id i)) eqn:V;
    unfold bind, read_ns, modify_ns, ret; cbn [negb ns warnings].
  - rewrite (is_valid_identity_resource_id_kind _ _ K).
    unfold raise_if. destruct b; reflexivity.
  - rewrite identity_name_to_resource_id_set, set_platform_workload_identities_twice.
    rewrite (is_valid_identity_resource_id_kind _ _ K).
    unfold raise_if. destruct b; reflexivity.
Qed.

Lemma normalize_identities_accepts (cmd : command) (n0 : namespace) (log : list string) :
  forall todo seen,
    Forall (accepted cmd n0) todo ->
    normalize_identities cmd seen todo
      (mk_world (set_platform_workload_identities (Some (seen ++ todo)) n0) log) =
    (Return tt,
     mk_world (set_platform_workload_identities
                 (Some (seen ++ map (normalized_pair cmd n0) todo)) n0) log).
Proof.
  induction todo as [| [name i] rest IH]; intros seen H.
  - reflexivity.
  - inversion H as [| ? ? Hi Hrest]; subst. unfold accepted in Hi. simpl in Hi.
    rewrite (normalize_identities_step cmd n0 log seen rest name i Hi).
    rewrite (IH _ Hrest). rewrite <- app_assoc. reflexivity.
Qed.

Lemma normalize_identities_rejects (cmd : command) (n0 : namespace) (log : list string)
    (name : string) (i : identity) (after : list (string * identity)) :
  identity_kind (identity_resource_id (normalized cmd n0 i)) = Some false ->
  forall before seen,
    Forall (accepted cmd n0) before ->
    normalize_identities cmd seen (before ++ (name, i) :: after)
      (mk_world (set_platform_workload_identities
                   (Some (seen ++ before ++ (name, i) :: after)) n0) log) =
    (Raise (not_an_identity name (normalized cmd n0 i)),
     mk_world (set_platform_workload_identities
                 (Some (seen ++ map (normalized_pair cmd n0) before ++
                        (name, normalized cmd n0 i) :: after)) n0) log).
Proof.
  intro K. induction before as [| [name' i'] rest IH]; intros seen H.
  - cbn [app map]. rewrite (normalize_identities_step cmd n0 log seen after name i K).
    reflexivity.
  - inversion H as [| ? ? Hi Hrest]; subst. unfold accepted in Hi. simpl in Hi.
    cbn [app].
    rewrite (normalize_identities_step cmd n0 log seen (rest ++ (name, i) :: after) name' i' Hi).
    rewrite (IH _ Hrest). rewrite <- app_assoc. reflexivity.
Qed.

End Collaborators.

End IdentityFacts.

Module IdentityClaims.
Import Sample IdentityShape CounterFacts IdentityFacts.
Local Open Scope list_scope.

Section Collaborators.
Context {ids : ResourceIds} {rt : Runtime}.

(** In create mode the list is only looked at when managed identity is
    enabled. *)
Lemma validate_platform_workload_identities_gate
    (cmd : command) (n : namespace) (log : list string)
    (identities : list (string * identity)) (enabled : option bool) :
  platform_workload_identities n = Some identities ->
  enable_managed_identity n = HasAttr enabled ->
  truthy_bool enabled = false ->
  validate_platform_workload_identities true cmd (mk_world n log) =
  (Raise managed_identity_required, mk_world n log).
Proof.
  intros Hp He Ht. unfold validate_platform_workload_identities, bind, read_ns.
  cbn [ns fst]. rewrite Hp, He. cbn [read_attr ret]. rewrite Ht. reflexivity.
Qed.

(** C8, amended.  Let the list be present and, in create mode, managed
    identity be enabled.  If some name occurs more than once, the
    validator raises [InvalidArgumentValueError] with the list of the
    names that occur at least twice (each once) in its message, and
    leaves the state alone.  If the names are pairwise distinct, the
    identities are visited in order, and each visited identity whose
    resource id is not a resource id gets the id built from the
    subscription, the resource group, "Microsoft.ManagedIdentity" and
    "userAssignedIdentities": when every identity then has that provider
    and type the validator returns with all of them rewritten; otherwise
    it raises [InvalidArgumentValueError], naming the first identity with
    another provider or type and its resource id, and the identities after
    that one are left as they were given. *)
Theorem validate_platform_workload_identities_cases
    (isCreate : bool) (cmd : command) (n : namespace) (log : list string)
    (identities : list (string * identity)) :
  platform_workload_identities n = Some identities ->
  (isCreate = true -> enable_managed_identity n = HasAttr (Some true)) ->
  (~ NoDup (map fst identities) ->
   validate_platform_workload_identities isCreate cmd (mk_world n log) =
     (Raise (duplicated_message (map fst identities)), mk_world n log) /\
   NoDup (duplicate_names (map fst identities)) /\
   forall x, In x (duplicate_names (map fst identities)) <->
             2 <= count_occ string_dec (map fst identities) x) /\
  (NoDup (map fst identities) ->
   Forall (accepted cmd n) identities ->
   validate_platform_workload_identities isCreate cmd (mk_world n log) =
     (Return tt,
      mk_world (set_platform_workload_identities
                  (Some (map (normalized_pair cmd n) identities)) n) log)) /\
  (NoDup (map fst identities) ->
   forall (before : list (string * identity)) (name : string) (i : identity)
          (after : list (string * identity)),
     identities = before ++ (name, i) :: after ->
     Forall (accepted cmd n) before ->
     identity_kind (identity_resource_id (normalized cmd n i)) = Some false ->
     validate_platform_workload_identities isCreate cmd (mk_world n log) =
       (Raise (not_an_identity name (normalized cmd n i)),
        mk_world (set_platform_workload_identities
                    (Some (map (normalized_pair cmd n) before ++
                           (name, normalized cmd n i) :: after)) n) log)).
Proof.
  intros Hp Hgate.
  assert (Hrun : validate_platform_workload_identities isCreate cmd (mk_world n log) =
                 match duplicate_names (map fst identities) with
                 | [] => normalize_identities cmd [] identities (mk_world n log)
                 | _ => (Raise (duplicated_message (map fst identities)), mk_world n log)
                 end).
  { unfold validate_platform_workload_identities, bind, read_ns.
    cbn [ns fst]. rewrite Hp.
    destruct isCreate.
    - rewrite (Hgate eq_refl). cbn [read_attr ret truthy_bool andb negb raise_if].
      unfold duplicated_message.
      destruct (duplicate_names (map fst identities)); reflexivity.
    - cbn [ret truthy_bool andb negb raise_if]. unfold duplicated_message.
      destruct (duplicate_names (map fst identities)); reflexivity. }
  assert (Hstate : mk_world n log =
                   mk_world (set_platform_workload_identities (Some ([] ++ identities)) n) log).
  { cbn [app]. rewrite <- Hp, set_platform_workload_identities_same. reflexivity. }
  rewrite Hrun. split; [| split].
  - intro Hdup. destruct (duplicate_names (map fst identities)) as [| d ds] eqn:E.
    + exfalso. apply Hdup. apply duplicate_names_nil. exact E.
    + rewrite <- E. split; [reflexivity |]. apply duplicate_names_spec.
  - intros Hnodup Hall. apply duplicate_names_nil in Hnodup. rewrite Hnodup.
    rewrite Hstate at 1. rewrite (@normalize_identities_accepts _ cmd n log identities [] Hall).
    reflexivity.
  - intros Hnodup before name i after Heq Hall Hkind.
    apply duplicate_names_nil in Hnodup. rewrite Hnodup.
    rewrite Hstate at 1. rewrite Heq.
    rewrite (@normalize_identities_rejects _ cmd n log name i after Hkind before [] Hall).
    reflexivity.
Qed.

End Collaborators.

(** C8, as stated, fails.  In create mode without managed identity a list
    with a duplicated name raises [RequiredArgumentMissingError], not
    [InvalidArgumentValueError]; and with distinct names, an identity that
    follows one of another type is not rewritten: "registry-identity"
    stays a bare name behind the vnet id. *)
Lemma validate_platform_workload_identities_not_as_stated :
  validate_platform_workload_identities (ids := plain_ids) (rt := one_file) true
    (context None) (mk_world (cluster false twice) []) =
    (Raise managed_identity_required, mk_world (cluster false twice) []) /\
  validate_platform_workload_identities (ids := plain_ids) (rt := one_file) true
    (context None) (mk_world (cluster true with_vnet) []) =
    (Raise (InvalidArgumentValueError
              ("Resource " ++ vnet1 ++ " used for platform workload identity network" ++
               " is not a valid userAssignedIdentity")),
     mk_world (cluster true
                 [("csi", mk_identity csi_id); ("network", mk_identity vnet1);
                  ("registry", mk_identity "registry-identity")]) []).
Proof. split; vm_compute; reflexivity. Qed.

Lemma validate_platform_workload_identities_cases_witness :
  validate_platform_workload_identities (ids := plain_ids) (rt := one_file) true
    (context None) (mk_world (cluster true twice) []) =
    (Raise (InvalidArgumentValueError
              "Platform workload identities [csi] were provided multiple times"),
     mk_world (cluster true twice) []) /\
  validate_platform_workload_identities (ids := plain_ids) (rt := one_file) true
    (context None) (mk_world (cluster true by_name) []) =
    (Return tt,
     mk_world (cluster true [("csi", mk_identity csi_id); ("registry", mk_identity registry_id)])
       []) /\
  validate_platform_workload_identities (ids := plain_ids) (rt := one_file) true
    (context None) (mk_world (cluster true with_vnet) []) =
    (Raise (not_an_identity "network" (mk_identity vnet1)),
     mk_world (cluster true
                 [("csi", mk_identity csi_id); ("network", mk_identity vnet1);
                  ("registry", mk_identity "registry-identity")]) []).
Proof.
  split; [| split].
  - refine (proj1 (proj1 (@validate_platform_workload_identities_cases
                            plain_ids one_file true (context None)
                            (cluster true twice) [] twice eq_refl (fun _ => eq_refl)) _)).
    intro H. inversion H as [| ? ? Hnotin _]. apply Hnotin. simpl. auto.
  - refine (proj1 (proj2 (@validate_platform_workload_identities_cases
                            plain_ids one_file true (context None)
                            (cluster true by_name) [] by_name eq_refl (fun _ => eq_refl))) _ _).
    + repeat constructor; simpl; intuition discriminate.
    + repeat constructor; vm_compute; reflexivity.
  - refine (proj2 (proj2 (@validate_platform_workload_identities_cases
                            plain_ids one_file true (context None)
                            (cluster true with_vnet) [] with_vnet eq_refl (fun _ => eq_refl)))
              _ [("csi", mk_identity "csi-identity")] "network" (mk_identity vnet1)
              [("registry", mk_identity "registry-identity")] eq_refl _ eq_refl).
    + repeat constructor; simpl; intuition discriminate.
    + repeat constructor; vm_compute; reflexivity.
Defined.

End IdentityClaims.

(** ** What the upgrade-target pattern accepts *)

Module UpgradePatternFacts.
Import Re Shape DomainShape ReFacts DomainFacts.
Local Open Scope list_scope.

Lemma times_single (P : ascii -> bool) (r : regex) (n : nat) :
  single P r ->
  forall s, lang (times n r) s <-> length s = n /\ forallb P s = true.
Proof.
  intro Hr. induction n as [| n IH]; intro s; simpl.
  - rewrite lang_eps. split.
    + intros ->. auto.
    + intros [Hl _]. destruct s; [reflexivity | discriminate].
  - split.
    + intro H. apply cat_inv in H as (s1 & s2 & -> & Ha & Hb).
      apply Hr in Ha as (c & -> & Hc). apply IH in Hb as [Hl Hf].
      simpl. rewrite Hc, Hf, Hl. auto.
    + intros [Hl Hf]. destruct s as [| c s']; [discriminate |].
      simpl in Hl, Hf. apply andb_true_iff in Hf as [Hc Hf].
      change (c :: s') with ([c] ++ s'). apply L_cat.
      * apply Hr. eauto.
      * apply IH. split; [lia | assumption].
Qed.

Lemma forallb_firstn_skipn (P : ascii -> bool) (n : nat) (s : list ascii) :
  forallb P s = true -> forallb P (firstn n s) = true /\ forallb P (skipn n s) = true.
Proof.
  intro H. rewrite <- (firstn_skipn n s) in H. rewrite forallb_app in H.
  apply andb_true_iff in H. exact H.
Qed.

(** Bounded repetition of a one-character pattern. *)
Lemma rep_single (P : ascii -> bool) (r : regex) (lo hi : nat) :
  single P r -> lo <= hi ->
  forall s, lang (Rep r lo hi) s <-> (lo <= length s <= hi /\ forallb P s = true).
Proof.
  intros Hr Hle s. unfold Rep. split.
  - intro H. apply cat_inv in H as (s1 & s2 & -> & Ha & Hb).
    apply (times_single lo Hr) in Ha as [Hl1 Hf1].
    apply (upto_single (hi - lo) Hr) in Hb as [Hl2 Hf2].
    rewrite length_app, forallb_app, Hf1, Hf2. split; [lia | reflexivity].
  - intros [Hl Hf]. rewrite <- (firstn_skipn lo s).
    destruct (forallb_firstn_skipn P lo s Hf) as [Hf1 Hf2].
    apply L_cat.
    + apply (times_single lo Hr). split; [| assumption].
      rewrite length_firstn. lia.
    + apply (upto_single (hi - lo) Hr). split; [| assumption].
      rewrite length_skipn. lia.
Qed.

Ltac digit_codes :=
  change (nat_of_ascii "0") with 48 in *;
  change (nat_of_ascii "1") with 49 in *;
  change (nat_of_ascii "4") with 52 in *;
  change (nat_of_ascii "9") with 57 in *.

Lemma in_range_bounds (lo hi c : ascii) :
  in_range lo hi c = true <->
  nat_of_ascii lo <= nat_of_ascii c <= nat_of_ascii hi.
Proof.
  unfold in_range. rewrite andb_true_iff, !Nat.leb_le. reflexivity.
Qed.

(** The minor group [(1[4-9]|[1-9][0-9])]: its first alternative adds
    nothing to the second. *)
Lemma minor_group_lang (m : list ascii) :
  lang (Alt (Cat (Lit "1") (Range "4" "9")) (Cat (Range "1" "9") (Range "0" "9"))) m <->
  exists m1 m2, m = [m1; m2] /\ in_range "1" "9" m1 = true /\ is_digit m2 = true.
Proof.
  split.
  - intro H. apply alt_inv in H as [H | H];
      apply cat_inv in H as (s1 & s2 & -> & Ha & Hb).
    + inversion Ha; subst. apply single_range in Hb as (c & -> & Hc).
      exists "1"%char, c. split; [reflexivity |]. split; [reflexivity |].
      unfold is_digit. apply in_range_bounds. apply in_range_bounds in Hc.
      digit_codes. lia.
    + apply single_range in Ha as (c1 & -> & Hc1).
      apply single_range in Hb as (c2 & -> & Hc2).
      exists c1, c2. auto.
  - intros (m1 & m2 & -> & H1 & H2). apply L_alt_r.
    change [m1; m2] with ([m1] ++ [m2]).
    apply L_cat; apply single_range; eauto.
Qed.

Lemma upgradeable_to_pattern_lang (cs : list ascii) :
  lang upgradeable_to_pattern cs <-> upgradeable_to_accepts cs = true.
Proof.
  unfold upgradeable_to_pattern. split.
  - intro H. apply cat_inv in H as (a & t & -> & Ha & H).
    apply cat_inv in H as (d1 & t1 & -> & Hd1 & H).
    apply cat_inv in H as (m & t2 & -> & Hm & H).
    apply cat_inv in H as (d2 & p & -> & Hd2 & Hp).
    apply (rep_single (single_range "4" "9") (le_n 1)) in Ha as [Hla Hfa].
    apply (rep_single (single_range "0" "9") (le_S _ _ (le_n 1))) in Hp as [Hlp Hfp].
    apply minor_group_lang in Hm as (m1 & m2 & -> & Hm1 & Hm2).
    inversion Hd1; subst. inversion Hd2; subst.
    destruct a as [| major [| ? ?]]; simpl in Hla; try lia.
    simpl in Hfa. rewrite andb_true_r in Hfa.
    simpl. rewrite Hfa, Hm1, Hm2. simpl.
    unfold short_number.
    replace (forallb is_digit p) with true by (symmetry; exact Hfp). cbn [andb].
    apply andb_true_iff. split; apply Nat.leb_le; lia.
  - unfold upgradeable_to_accepts.
    destruct cs as [| major [| d1 [| m1 [| m2 [| d2 patch]]]]]; try discriminate.
    intro H. apply andb_true_iff in H as [H Hp]. apply andb_true_iff in H as [H Hd2].
    apply andb_true_iff in H as [H Hm2]. apply andb_true_iff in H as [H Hm1].
    apply andb_true_iff in H as [Hmaj Hd1].
    apply Ascii.eqb_eq in Hd1, Hd2. subst d1 d2.
    unfold short_number in Hp. apply andb_true_iff in Hp as [Hp Hl2].
    apply andb_true_iff in Hp as [Hfp Hl1]. apply Nat.leb_le in Hl1, Hl2.
    change (major :: "."%char :: m1 :: m2 :: "."%char :: patch)
      with ([major] ++ ["."%char] ++ [m1; m2] ++ ["."%char] ++ patch).
    apply L_cat.
    { apply (rep_single (single_range "4" "9") (le_n 1)). simpl. rewrite Hmaj. auto. }
    apply L_cat; [constructor |]. apply L_cat.
    { apply minor_group_lang. eauto. }
    apply L_cat; [constructor |].
    apply (rep_single (single_range "0" "9") (le_S _ _ (le_n 1))).
    split; [lia | exact Hfp].
Qed.

(** The pattern of [validate_upgradeable_to_format], character by
    character. *)
Lemma upgradeable_to_pattern_matches (cs : list ascii) :
  matches upgradeable_to_pattern cs = upgradeable_to_accepts cs.
Proof.
  apply eq_true_iff_eq. rewrite matches_lang. apply upgradeable_to_pattern_lang.
Qed.

(** Every accepted minor is a two-digit number from 10 to 99, and each of
    these is accepted. *)
Lemma accepted_minor_range (major m1 m2 : ascii) (patch : list ascii) :
  upgradeable_to_accepts (major :: "."%char :: m1 :: m2 :: "."%char :: patch) = true ->
  10 <= decimal_value [m1; m2] <= 99.
Proof.
  unfold upgradeable_to_accepts. intro H.
  apply andb_true_iff in H as [H _]. apply andb_true_iff in H as [H _].
  apply andb_true_iff in H as [H Hm2]. apply andb_true_iff in H as [_ Hm1].
  unfold is_digit in Hm2. apply in_range_bounds in Hm1, Hm2.
  unfold decimal_value. cbn [fold_left]. digit_codes. lia.
Qed.

(** Whatever validator state: an upgrade target that is not empty and does
    not end in a newline passes exactly when it has the accepted form. *)
Lemma validate_upgradeable_to_format_accepts (n : namespace) (log : list string) (u : string) :
  upgradeable_to n = Some u ->
  PyStr.truthy u = true ->
  ends_with_newline u = false ->
  validate_upgradeable_to_format (mk_world n log) =
  (if upgradeable_to_accepts (list_ascii_of_string u)
   then Return tt
   else Raise (InvalidArgumentValueError "--upgradeable-to format is invalid"),
   mk_world n log).
Proof.
  intros Hu Ht Hnl. unfold validate_upgradeable_to_format, bind, read_ns. simpl.
  rewrite Hu. simpl. rewrite Ht. simpl.
  rewrite (match_anchored_plain _ _ Hnl), upgradeable_to_pattern_matches.
  destruct (upgradeable_to_accepts _); reflexivity.
Qed.

End UpgradePatternFacts.

(** * Further properties of the validators *)

Import MoreShape.

(** ** Version formats, continued *)

Module VersionFormatFacts.
Import Re Shape DomainShape ReFacts DomainFacts UpgradePatternFacts Sample.
Local Open Scope list_scope.

Lemma digit_not_dot (c : ascii) : is_digit c = true -> Ascii.eqb c dot = false.
Proof.
  intro H. destruct (Ascii.eqb_spec c dot) as [-> | _]; [| reflexivity].
  vm_compute in H. discriminate.
Qed.

Lemma digits_no_dot (l : list ascii) : forallb is_digit l = true -> no_dot l = true.
Proof.
  intro H. unfold no_dot. apply forallb_forall. intros x Hx.
  rewrite forallb_forall in H. rewrite (digit_not_dot _ (H x Hx)). reflexivity.
Qed.

Lemma major_is_digit (c : ascii) : in_range "4" "9" c = true -> is_digit c = true.
Proof.
  intro H. unfold is_digit. apply in_range_bounds. apply in_range_bounds in H.
  digit_codes. lia.
Qed.

Lemma short_number_lang (l : list ascii) :
  lang (Rep (Range "0" "9") 1 2) l <-> short_number l = true.
Proof.
  rewrite (rep_single (single_range "0" "9") (le_S _ _ (le_n 1))).
  unfold short_number. rewrite !andb_true_iff, !Nat.leb_le.
  change (forallb is_digit l) with (forallb (in_range "0" "9") l). tauto.
Qed.

Lemma short_number_no_dot (l : list ascii) : short_number l = true -> no_dot l = true.
Proof.
  unfold short_number. intro H. apply andb_true_iff in H as [H _].
  apply andb_true_iff in H as [H _]. apply digits_no_dot, H.
Qed.

Lemma major_lang (l : list ascii) :
  lang (Rep (Range "4" "9") 1 1) l <-> exists c, l = [c] /\ in_range "4" "9" c = true.
Proof.
  rewrite (rep_single (single_range "4" "9") (le_n 1)). split.
  - intros [Hl Hf]. destruct l as [| c [| ? ?]]; simpl in Hl; try lia.
    simpl in Hf. rewrite andb_true_r in Hf. eauto.
  - intros (c & -> & Hc). simpl. rewrite Hc. auto.
Qed.

Lemma version_pattern_lang (cs : list ascii) :
  lang version_pattern cs <-> version_accepts cs = true.
Proof.
  unfold version_pattern, version_accepts. change "."%char with dot. split.
  - intro H. apply cat_inv in H as (a & t & -> & Ha & H).
    apply cat_inv in H as (d1 & t1 & -> & Hd1 & H).
    apply cat_inv in H as (m & t2 & -> & Hm & H).
    apply cat_inv in H as (d2 & p & -> & Hd2 & Hp).
    apply major_lang in Ha as (major & -> & Hmaj).
    apply short_number_lang in Hm, Hp. inversion Hd1; subst. inversion Hd2; subst.
    change ([major] ++ [dot] ++ m ++ [dot] ++ p) with ([major] ++ dot :: m ++ dot :: p).
    replace ([major] ++ dot :: m ++ dot :: p) with (join_dots [[major]; m; p]).
    + rewrite split_join.
      * rewrite Hmaj, Hm, Hp. reflexivity.
      * simpl. rewrite (digit_not_dot _ (major_is_digit _ Hmaj)).
        rewrite (short_number_no_dot _ Hm), (short_number_no_dot _ Hp). reflexivity.
    + simpl. rewrite app_nil_r. reflexivity.
  - intro H. rewrite <- (join_split cs).
    destruct (split_on dot cs) as [| [| major [| ? ?]] [| m [| p [| ? ?]]]]; try discriminate.
    apply andb_true_iff in H as [H Hp]. apply andb_true_iff in H as [Hmaj Hm].
    simpl. rewrite app_nil_r.
    change (major :: dot :: m ++ dot :: p) with ([major] ++ [dot] ++ m ++ [dot] ++ p).
    apply L_cat; [apply major_lang; eauto |].
    apply L_cat; [constructor |].
    apply L_cat; [apply short_number_lang; exact Hm |].
    apply L_cat; [constructor | apply short_number_lang; exact Hp].
Qed.

Lemma version_pattern_matches (cs : list ascii) :
  matches version_pattern cs = version_accepts cs.
Proof.
  apply eq_true_iff_eq. rewrite matches_lang. apply version_pattern_lang.
Qed.

(** X1.  A version that does not end in a newline passes
    [validate_version_format] exactly when, between its dots, it has a
    digit 4-9, a number of one or two digits and another number of one or
    two digits; otherwise [InvalidArgumentValueError] is raised.  The
    state is not changed. *)
Theorem validate_version_format_accepts (n : namespace) (log : list string) (v : string) :
  version n = Some v ->
  ends_with_newline v = false ->
  validate_version_format (mk_world n log) =
  (if version_accepts (list_ascii_of_string v)
   then Return tt
   else Raise (InvalidArgumentValueError "--version is invalid"),
   mk_world n log).
Proof.
  intros Hv Hnl. unfold validate_version_format, bind, read_ns. simpl. rewrite Hv.
  rewrite (match_anchored_plain _ _ Hnl), version_pattern_matches.
  destruct (version_accepts _); reflexivity.
Qed.

Lemma validate_version_format_accepts_witness :
  validate_version_format (mk_world (with_version (Some "4.9.12") blank) []) =
    (Return tt, mk_world (with_version (Some "4.9.12") blank) []) /\
  validate_version_format (mk_world (with_version (Some "4.123.1") blank) []) =
    (Raise (InvalidArgumentValueError "--version is invalid"),
     mk_world (with_version (Some "4.123.1") blank) []).
Proof.
  split.
  - exact (validate_version_format_accepts (with_version (Some "4.9.12") blank) []
             eq_refl eq_refl).
  - exact (validate_version_format_accepts (with_version (Some "4.123.1") blank) []
             eq_refl eq_refl).
Defined.

Lemma upgradeable_within_version (cs : list ascii) :
  matches upgradeable_to_pattern cs = true -> matches version_pattern cs = true.
Proof.
  rewrite upgradeable_to_pattern_matches, matches_lang.
  unfold upgradeable_to_accepts.
  destruct cs as [| major [| d1 [| m1 [| m2 [| d2 patch]]]]]; try discriminate.
  intro H. apply andb_true_iff in H as [H Hp]. apply andb_true_iff in H as [H Hd2].
  apply andb_true_iff in H as [H Hm2]. apply andb_true_iff in H as [H Hm1].
  apply andb_true_iff in H as [Hmaj Hd1].
  apply Ascii.eqb_eq in Hd1, Hd2. subst d1 d2.
  change (major :: "."%char :: m1 :: m2 :: "."%char :: patch)
    with ([major] ++ ["."%char] ++ [m1; m2] ++ ["."%char] ++ patch).
  apply L_cat; [apply major_lang; eauto |].
  apply L_cat; [constructor |].
  apply L_cat.
  { apply short_number_lang. unfold short_number. simpl. rewrite Hm2.
    assert (H1 : is_digit m1 = true).
    { unfold is_digit. apply in_range_bounds. apply in_range_bounds in Hm1.
      digit_codes. lia. }
    rewrite H1. reflexivity. }
  apply L_cat; [constructor | apply short_number_lang; exact Hp].
Qed.

Lemma match_anchored_mono (r1 r2 : regex) (s : string) :
  (forall cs, matches r1 cs = true -> matches r2 cs = true) ->
  match_anchored r1 s = true -> match_anchored r2 s = true.
Proof.
  intros Hsub. unfold match_anchored. cbv zeta. intro H.
  apply orb_true_iff in H as [H | H]; apply orb_true_iff.
  - left. apply Hsub, H.
  - right. destruct (rev (list_ascii_of_string s)) as [| c rest]; [discriminate |].
    apply andb_true_iff in H as [Hc H]. rewrite Hc. simpl. apply Hsub, H.
Qed.

(** X2.  Every non-empty upgrade target that passes
    [validate_upgradeable_to_format] also passes [validate_version_format]
    when given as the version. *)
Theorem upgrade_target_is_a_version (n : namespace) (log : list string) (u : string) :
  upgradeable_to n = Some u ->
  version n = Some u ->
  PyStr.truthy u = true ->
  fst (validate_upgradeable_to_format (mk_world n log)) = Return tt ->
  fst (validate_version_format (mk_world n log)) = Return tt.
Proof.
  intros Hu Hv Ht. unfold validate_upgradeable_to_format, validate_version_format,
    bind, read_ns. simpl. rewrite Hu, Hv. simpl. rewrite Ht. simpl.
  destruct (match_anchored upgradeable_to_pattern u) eqn:E.
  - rewrite (@match_anchored_mono _ _ u upgradeable_within_version E). reflexivity.
  - discriminate.
Qed.

Lemma upgrade_target_is_a_version_witness :
  fst (validate_version_format
         (mk_world (with_version (Some "4.15.3") (with_upgradeable_to (Some "4.15.3") blank))
            [])) = Return tt.
Proof.
  exact (upgrade_target_is_a_version
           (with_version (Some "4.15.3") (with_upgradeable_to (Some "4.15.3") blank)) []
           eq_refl eq_refl eq_refl eq_refl).
Defined.

(** X3.  An upgrade target that is not empty and does not end in a newline
    passes [validate_upgradeable_to_format] exactly when it is a digit
    4-9, a dot, a two-digit minor whose first digit is 1-9, a dot and a
    patch of one or two digits; otherwise [InvalidArgumentValueError] is
    raised.  The state is not changed. *)
Theorem validate_upgradeable_to_format_shape (n : namespace) (log : list string) (u : string) :
  upgradeable_to n = Some u ->
  PyStr.truthy u = true ->
  ends_with_newline u = false ->
  validate_upgradeable_to_format (mk_world n log) =
  (if upgradeable_to_accepts (list_ascii_of_string u)
   then Return tt
   else Raise (InvalidArgumentValueError "--upgradeable-to format is invalid"),
   mk_world n log).
Proof.
  intros Hu Ht Hnl. unfold validate_upgradeable_to_format, bind, read_ns.
  cbn [ns fst]. rewrite Hu. cbn [PyStr.truthy_opt]. rewrite Ht. cbn [negb].
  rewrite (match_anchored_plain _ _ Hnl), upgradeable_to_pattern_matches.
  destruct (upgradeable_to_accepts _); reflexivity.
Qed.

Lemma validate_upgradeable_to_format_shape_witness :
  validate_upgradeable_to_format (mk_world (with_upgradeable_to (Some "4.15.3") blank) []) =
    (Return tt, mk_world (with_upgradeable_to (Some "4.15.3") blank) []) /\
  validate_upgradeable_to_format (mk_world (with_upgradeable_to (Some "4.9.3") blank) []) =
    (Raise (InvalidArgumentValueError "--upgradeable-to format is invalid"),
     mk_world (with_upgradeable_to (Some "4.9.3") blank) []).
Proof.
  split.
  - exact (validate_upgradeable_to_format_shape (with_upgradeable_to (Some "4.15.3") blank) []
             eq_refl eq_refl eq_refl).
  - exact (validate_upgradeable_to_format_shape (with_upgradeable_to (Some "4.9.3") blank) []
             eq_refl eq_refl eq_refl).
Defined.

End VersionFormatFacts.

(** ** Visibility, continued *)

Module VisibilityCaseFacts.
Import Sample.

Lemma capital_p (c : ascii) :
  Ascii.eqb (PyStr.upper_char c) "P" = Ascii.eqb (PyStr.lower_char c) "p".
Proof. destruct c as [[] [] [] [] [] [] [] []]; vm_compute; reflexivity. Qed.

Lemma capitalize_private (v : string) :
  (PyStr.capitalize v =? "Private") = same_ignoring_case v "private".
Proof.
  unfold same_ignoring_case. destruct v as [| c s]; [reflexivity |].
  change (PyStr.lower "private") with "private".
  change (PyStr.capitalize (String c s)) with (String (PyStr.upper_char c) (PyStr.lower s)).
  change (PyStr.lower (String c s)) with (String (PyStr.lower_char c) (PyStr.lower s)).
  simpl. rewrite capital_p. reflexivity.
Qed.

Lemma capitalize_public (v : string) :
  (PyStr.capitalize v =? "Public") = same_ignoring_case v "public".
Proof.
  unfold same_ignoring_case. destruct v as [| c s]; [reflexivity |].
  change (PyStr.lower "public") with "public".
  change (PyStr.capitalize (String c s)) with (String (PyStr.upper_char c) (PyStr.lower s)).
  change (PyStr.lower (String c s)) with (String (PyStr.lower_char c) (PyStr.lower s)).
  simpl. rewrite capital_p. reflexivity.
Qed.

(** X4.  A visibility that is present passes [validate_visibility(key)]
    exactly when it is "private" or "public" up to the case of its
    letters; any other value raises [InvalidArgumentValueError], whose
    message shows the capitalised value rather than the one given. *)
Theorem validate_visibility_ignores_case
    (key : string) (n : namespace) (log : list string) (v : string) :
  getattr n key = HasAttr (Some v) ->
  validate_visibility key (mk_world n log) =
  (if same_ignoring_case v "private" || same_ignoring_case v "public"
   then Return tt
   else Raise (InvalidArgumentValueError
                 ("Invalid --" ++ PyStr.replace "_" "-" key ++ " '" ++
                  PyStr.capitalize v ++ "'.")),
   mk_world n log).
Proof.
  intro G. unfold validate_visibility, bind, read_ns, read_attr. cbn [ns fst].
  rewrite G. cbn [ret]. unfold str_in. cbn [existsb].
  rewrite orb_false_r, capitalize_private, capitalize_public.
  destruct (same_ignoring_case v "private" || same_ignoring_case v "public"); reflexivity.
Qed.

Lemma validate_visibility_ignores_case_witness :
  validate_visibility "apiserver_visibility"
    (mk_world (set_apiserver_visibility (Some "pRIVATE") blank) []) =
    (Return tt, mk_world (set_apiserver_visibility (Some "pRIVATE") blank) []) /\
  validate_visibility "ingress_visibility"
    (mk_world (set_ingress_visibility (Some "internal") blank) []) =
    (Raise (InvalidArgumentValueError "Invalid --ingress-visibility 'Internal'."),
     mk_world (set_ingress_visibility (Some "internal") blank) []).
Proof.
  split.
  - exact (validate_visibility_ignores_case "apiserver_visibility"
             (set_apiserver_visibility (Some "pRIVATE") blank) [] eq_refl).
  - exact (validate_visibility_ignores_case "ingress_visibility"
             (set_ingress_visibility (Some "internal") blank) [] eq_refl).
Defined.

End VisibilityCaseFacts.

(** ** Checks that only read *)

Module ReadOnlyFacts.
Import Sample.

Ltac split_cases :=
  repeat (cbn beta iota;
          match goal with
          | |- context [match ?x with _ => _ end] =>
              lazymatch x with
              | context [match _ with _ => _ end] => fail
              | _ => destruct x
              end
          end).

Section Collaborators.
Context {ids : ResourceIds} {rt : Runtime}.

(** X5.  The validators that only check values leave the namespace and the
    log exactly as they found them, whether they return or raise:
    [validate_client_id], [validate_client_secret],
    [validate_cluster_resource_group], [validate_disk_encryption_set],
    [validate_domain], [validate_subnets], [validate_worker_count],
    [validate_worker_vm_disk_size_gb],
    [validate_refresh_cluster_credentials], [validate_version_format],
    [validate_upgradeable_to_format],
    [validate_load_balancer_managed_outbound_ip_count],
    [validate_enable_managed_identity] and [validate_delete_identities]. *)
Theorem checks_leave_state_alone (w : world) :
  (forall isCreate, snd (validate_client_id isCreate w) = w) /\
  (forall isCreate, snd (validate_client_secret isCreate w) = w) /\
  (forall exists_ o, snd (validate_cluster_resource_group exists_ o w) = w) /\
  (forall get o, snd (validate_disk_encryption_set get o w) = w) /\
  snd (validate_domain w) = w /\
  (forall master worker, snd (validate_subnets master worker w) = w) /\
  snd (validate_worker_count w) = w /\
  (forall o, snd (validate_worker_vm_disk_size_gb o w) = w) /\
  (forall o, snd (validate_refresh_cluster_credentials o w) = w) /\
  snd (validate_version_format w) = w /\
  snd (validate_upgradeable_to_format w) = w /\
  (forall o, snd (validate_load_balancer_managed_outbound_ip_count o w) = w) /\
  snd (validate_enable_managed_identity w) = w /\
  (forall o, snd (validate_delete_identities o w) = w).
Proof.
  repeat split; intros;
    unfold validate_client_id, validate_client_secret, validate_cluster_resource_group,
      validate_disk_encryption_set, validate_domain, validate_subnets,
      validate_worker_count, validate_worker_vm_disk_size_gb,
      validate_refresh_cluster_credentials, validate_version_format,
      validate_upgradeable_to_format, validate_load_balancer_managed_outbound_ip_count,
      validate_enable_managed_identity, validate_delete_identities,
      bind, read_ns, read_attr, subscript, raise_if, ret, raise;
    cbn [ns fst snd]; split_cases; reflexivity.
Qed.

(** X6.  When a client id that [uuid.UUID] accepts and a non-empty client
    secret are both given, [validate_client_id] and
    [validate_client_secret] agree: one passes exactly when the other
    does. *)
Theorem client_credentials_agree
    (isCreate : bool) (n : namespace) (log : list string) (cid secret : string) :
  client_id n = Some cid ->
  client_secret n = Some secret ->
  PyStr.truthy cid = true ->
  PyStr.truthy secret = true ->
  uuid_parses cid = true ->
  fst (validate_client_id isCreate (mk_world n log)) = Return tt <->
  fst (validate_client_secret isCreate (mk_world n log)) = Return tt.
Proof.
  intros Hid Hsec Hcid Hsecret Huuid.
  unfold validate_client_id, validate_client_secret, bind, read_ns, raise_if, ret, raise.
  cbn [ns fst snd]. rewrite Hid, Hsec. cbn [PyStr.truthy_opt]. rewrite Hcid, Hsecret, Huuid.
  destruct (enable_managed_identity n) as [| [[|] |]]; cbn;
    destruct (platform_workload_identities n); cbn;
    destruct isCreate; cbn; destruct (upgradeable_to n); cbn;
    split; intro H; try reflexivity; try discriminate.
Qed.

(** X7.  When managed identity is enabled and
    [validate_enable_managed_identity] passes, no client id and no client
    secret are set, the platform workload identities are a non-empty list
    and a cluster identity is given; [validate_client_id] and
    [validate_client_secret] then pass as well. *)
Theorem managed_identity_excludes_credentials (n : namespace) (log : list string) :
  enable_managed_identity n = HasAttr (Some true) ->
  fst (validate_enable_managed_identity (mk_world n log)) = Return tt ->
  client_id n = None /\ client_secret n = None /\
  truthy_list (platform_workload_identities n) = true /\
  PyStr.truthy_opt (mi_user_assigned n) = true /\
  forall isCreate,
    fst (validate_client_id isCreate (mk_world n log)) = Return tt /\
    fst (validate_client_secret isCreate (mk_world n log)) = Return tt.
Proof.
  intro He. unfold validate_enable_managed_identity, validate_client_id,
    validate_client_secret, bind, read_ns, read_attr, raise_if, ret, raise.
  cbn [ns fst snd]. rewrite He. cbn.
  destruct (client_id n); cbn; [discriminate |].
  destruct (client_secret n); cbn; [discriminate |].
  destruct (truthy_list (platform_workload_identities n)); cbn; [| discriminate].
  destruct (PyStr.truthy_opt (mi_user_assigned n)); cbn; [| discriminate].
  intros _. repeat split.
Qed.

(** X8.  With [--refresh-credentials] set,
    [validate_refresh_cluster_credentials] passes exactly when client id,
    client secret, platform workload identities and upgrade target are all
    absent. *)
Theorem refresh_credentials_stand_alone (o : options) (n : namespace) (log : list string) :
  refresh_cluster_credentials o = Some true ->
  fst (validate_refresh_cluster_credentials o (mk_world n log)) = Return tt <->
  client_id n = None /\ client_secret n = None /\
  platform_workload_identities n = None /\ upgradeable_to n = None.
Proof.
  intro Hr. unfold validate_refresh_cluster_credentials, bind, read_ns, raise_if, ret, raise.
  cbn [ns fst snd]. rewrite Hr. cbn.
  destruct (client_secret n); cbn; [split; [discriminate | intros (_ & H & _); discriminate] |].
  destruct (client_id n); cbn; [split; [discriminate | intros (H & _); discriminate] |].
  destruct (platform_workload_identities n); cbn;
    [split; [discriminate | intros (_ & _ & H & _); discriminate] |].
  destruct (upgradeable_to n); cbn;
    [split; [discriminate | intros (_ & _ & _ & H); discriminate] |].
  split; auto.
Qed.

End Collaborators.

End ReadOnlyFacts.

(** ** Subnets and vnet, continued *)

Module NetworkFacts.
Import Sample SubnetFacts ReadOnlyFacts.

Ltac tidy :=
  cbn [ns fst snd warnings vnet vnet_resource_group_name resource_group_name negb
       set_vnet set_vnet_resource_group_name].

Lemma eqb_comm (a b : string) : (a =? b) = (b =? a).
Proof. apply String.eqb_sym. Qed.

Section Collaborators.
Context {ids : ResourceIds}.

(** X9.  [validate_subnets] never passes two ids whose subnet names are
    equal up to the case of their letters; in particular it never passes
    the same id twice. *)
Theorem validate_subnets_needs_two_subnets
    (master worker master_child worker_child : string) (w : world) :
  p_child_name_1 (parse_resource_id master) = Some master_child ->
  p_child_name_1 (parse_resource_id worker) = Some worker_child ->
  same_ignoring_case master_child worker_child = true ->
  fst (validate_subnets master worker w) <> Return tt.
Proof.
  unfold same_ignoring_case. intros Hm Hw Hsame.
  unfold validate_subnets, bind, subscript, raise_if, ret, raise. rewrite Hm, Hw, Hsame.
  split_cases; cbn; discriminate.
Qed.

(** X10.  Whether [validate_subnets] passes does not depend on which of
    the two ids is given as the master subnet. *)
Theorem validate_subnets_symmetric (a b : string) (w : world) :
  fst (validate_subnets a b w) = Return tt <-> fst (validate_subnets b a w) = Return tt.
Proof.
  unfold validate_subnets, bind, subscript, raise_if, ret, raise.
  destruct (p_resource_group (parse_resource_id a)) as [ga |],
           (p_resource_group (parse_resource_id b)) as [gb |]; cbn;
    try (split; intro H; solve [reflexivity | discriminate]).
  rewrite (eqb_comm (PyStr.lower gb) (PyStr.lower ga)).
  destruct (PyStr.lower ga =? PyStr.lower gb); cbn; [| split; discriminate].
  destruct (p_name (parse_resource_id a)) as [na |],
           (p_name (parse_resource_id b)) as [nb |]; cbn;
    try (split; intro H; solve [reflexivity | discriminate]).
  rewrite (eqb_comm (PyStr.lower nb) (PyStr.lower na)).
  destruct (PyStr.lower na =? PyStr.lower nb); cbn; [| split; discriminate].
  destruct (p_child_name_1 (parse_resource_id a)) as [ca |],
           (p_child_name_1 (parse_resource_id b)) as [cb |]; cbn;
    try (split; intro H; solve [reflexivity | discriminate]).
  rewrite (eqb_comm (PyStr.lower cb) (PyStr.lower ca)).
  destruct (PyStr.lower ca =? PyStr.lower cb); cbn;
    split; intro H; solve [reflexivity | discriminate].
Qed.

(** X11.  For a disk encryption set that is a resource id with a resource
    group and a name, the outcome of [validate_disk_encryption_set] is
    decided by the remote fetch: a [CloudError] becomes
    [InvalidArgumentValueError] with its message appended, and any other
    exception escapes as it is.  A value that is not a resource id raises
    [InvalidArgumentValueError] whatever the remote side would answer. *)
Theorem validate_disk_encryption_set_cases
    (get : string -> string -> fetched) (o : options) (w : world) (des : string) :
  disk_encryption_set o = Some des ->
  (is_valid_resource_id des = false ->
   validate_disk_encryption_set get o w =
     (Raise (InvalidArgumentValueError
               ("Invalid --disk-encryption-set '" ++ des ++ "', has to be a resource ID.")),
      w)) /\
  (is_valid_resource_id des = true ->
   forall group name : string,
     p_resource_group (parse_resource_id des) = Some group ->
     p_name (parse_resource_id des) = Some name ->
     validate_disk_encryption_set get o w =
       (match get group name with
        | Fetched => Return tt
        | CloudError msg =>
            Raise (InvalidArgumentValueError
                     ("Invalid --disk-encryption-set, error when getting '" ++ des ++
                      "': " ++ msg))
        | Failed e => Raise e
        end, w)).
Proof.
  intro Hd. unfold validate_disk_encryption_set, bind, subscript, raise_if, ret, raise.
  rewrite Hd. split.
  - intros ->. reflexivity.
  - intros -> group name -> ->. cbn. destruct (get group name); reflexivity.
Qed.

(** X12.  [validate_vnet] never raises and never logs; it changes at most
    the vnet and its resource group, and afterwards the vnet resource
    group is the one given or, when none was given, the cluster's. *)
Theorem validate_vnet_always_returns (cmd : command) (w : world) :
  fst (validate_vnet cmd w) = Return tt /\
  warnings (snd (validate_vnet cmd w)) = warnings w /\
  same_but_vnet (ns w) (ns (snd (validate_vnet cmd w))) /\
  vnet_resource_group_name (ns (snd (validate_vnet cmd w))) =
    (if PyStr.truthy_opt (vnet_resource_group_name (ns w))
     then vnet_resource_group_name (ns w)
     else resource_group_name (ns w)).
Proof.
  destruct w as [n log]. destruct n.
  unfold validate_vnet, validate_vnet_resource_group_name, same_but_vnet,
    bind, read_ns, modify_ns, ret.
  cbn [ns fst snd warnings vnet vnet_resource_group_name resource_group_name].
  destruct (PyStr.truthy_opt vnet_resource_group_name0); cbn;
    destruct vnet0 as [v |]; cbn; try (repeat split; reflexivity);
    destruct (PyStr.truthy v); cbn; try (repeat split; reflexivity);
    destruct (is_valid_resource_id v); cbn; repeat split; reflexivity.
Qed.

(** X13.  [validate_vnet] is idempotent as soon as the id it builds for a
    vnet name is itself a resource id: a second run changes nothing. *)
Theorem validate_vnet_idempotent (cmd : command) (w : world) :
  (forall v,
     vnet (ns w) = Some v ->
     is_valid_resource_id
       (resource_id (subscription_id cmd)
          (if PyStr.truthy_opt (vnet_resource_group_name (ns w))
           then vnet_resource_group_name (ns w)
           else resource_group_name (ns w))
          "Microsoft.Network" "virtualNetworks" v) =
     true) ->
  validate_vnet cmd (snd (validate_vnet cmd w)) = validate_vnet cmd w.
Proof.
  intro Hbuilt. destruct w as [n log]. destruct n.
  unfold validate_vnet, validate_vnet_resource_group_name,
    bind, read_ns, modify_ns, ret.
  tidy. cbn [ns vnet vnet_resource_group_name resource_group_name] in Hbuilt.
  destruct (PyStr.truthy_opt vnet_resource_group_name0) eqn:Hg; tidy;
    (destruct vnet0 as [v |]; tidy;
     [pose proof (Hbuilt v eq_refl) as Hb;
      destruct (PyStr.truthy v) eqn:Ht; tidy;
      [destruct (is_valid_resource_id v) eqn:Hv; tidy |] |]);
    rewrite ?Hg; tidy;
    try (destruct (PyStr.truthy_opt resource_group_name0) eqn:Hr; tidy);
    repeat (first [rewrite Ht | rewrite Hv | rewrite Hb]; tidy);
    try reflexivity;
    match goal with
    | |- context [PyStr.truthy (resource_id ?a ?b ?c ?d ?e)] =>
        destruct (PyStr.truthy (resource_id a b c d e)); tidy;
        repeat (first [rewrite Ht | rewrite Hv | rewrite Hb]; tidy); reflexivity
    end.
Qed.

End Collaborators.

End NetworkFacts.

Module SubnetMoreFacts.
Import Sample SubnetFacts.

Section Collaborators.
Context {ids : ResourceIds}.

Lemma resolve_subnet_full_id
    (key : string) (cmd : command) (w : world) (s : string) :
  getattr (ns w) key = HasAttr (Some s) ->
  is_valid_resource_id s = true ->
  resolve_subnet key cmd w = (Return s, w).
Proof.
  intros G V. unfold resolve_subnet, bind, read_ns, read_attr. cbn [ns fst].
  rewrite G. cbn. rewrite V. reflexivity.
Qed.

(** X14.  [validate_subnet(key)] writes to the namespace only when it
    resolves a short name under a vnet: when the value is already a
    resource id the state is left as it was, whatever the outcome, and
    when the value is not a resource id and no vnet is given the validator
    raises [RequiredArgumentMissingError] and the state is left as it
    was. *)
Theorem validate_subnet_writes_only_when_resolving
    (key : string) (cmd : command) (w : world) (given : option string) :
  getattr (ns w) key = HasAttr given ->
  (is_valid_resource_id_opt given = true -> snd (validate_subnet key cmd w) = w) /\
  (is_valid_resource_id_opt given = false ->
   PyStr.truthy_opt (vnet (ns w)) = false ->
   validate_subnet key cmd w =
     (Raise (RequiredArgumentMissingError
               ("Must specify --vnet if --" ++ PyStr.replace "_" "-" key ++
                " is not an id.")), w)).
Proof.
  intro G. split.
  - intro V. rewrite validate_subnet_state.
    destruct given as [s |]; [| discriminate]. simpl in V.
    rewrite (resolve_subnet_full_id key cmd w G V). reflexivity.
  - intros V Hv. unfold validate_subnet, resolve_subnet, bind, read_ns, read_attr.
    cbn [ns fst]. rewrite G. cbn [ret]. rewrite V, Hv. reflexivity.
Qed.

(** X15.  Once [validate_subnet(key)] has passed and the id it left in the
    namespace is a resource id, running it again passes and changes
    nothing. *)
Theorem validate_subnet_passes_again
    (key : string) (cmd : command) (w w' : world) (subnet : string) :
  validate_subnet key cmd w = (Return tt, w') ->
  getattr (ns w') key = HasAttr (Some subnet) ->
  is_valid_resource_id subnet = true ->
  validate_subnet key cmd w' = (Return tt, w').
Proof.
  intros H G V. unfold validate_subnet, bind in *.
  destruct (resolve_subnet key cmd w) as [[subnet0 | e] w1] eqn:R; [| discriminate].
  pose proof (resolve_subnet_returns key cmd w R) as G1.
  pose proof (check_subnet_parts_frame key cmd subnet0 w1) as Hc.
  destruct (check_subnet_parts key cmd subnet0 w1) as [[p | e] w2] eqn:C; [| discriminate].
  simpl in Hc. subst w2.
  pose proof (fetch_subnet_frame key cmd subnet0 p w1) as Hf.
  rewrite H in Hf. simpl in Hf. subst w'.
  rewrite G1 in G. injection G as <-.
  rewrite (resolve_subnet_full_id key cmd w1 G1 V), C. exact H.
Qed.

End Collaborators.

End SubnetMoreFacts.

(** ** Identities, continued *)

Module IdentityMoreFacts.
Import Sample IdentityShape CounterFacts IdentityFacts.
Local Open Scope list_scope.

Section Collaborators.
Context {ids : ResourceIds} {rt : Runtime}.

Lemma is_valid_identity_resource_id_raises (rid : string) (w : world) :
  identity_kind rid = None ->
  exists key, is_valid_identity_resource_id rid w = (Raise (KeyError key), w).
Proof.
  unfold identity_kind, is_valid_identity_resource_id, bind, subscript, ret, raise.
  destruct (p_namespace (parse_resource_id rid)) as [provider |]; [| eauto].
  destruct (provider =? "Microsoft.ManagedIdentity"); [| discriminate].
  destruct (p_type (parse_resource_id rid)) as [type |]; [discriminate | eauto].
Qed.

(** A turn of the loop on an identity whose parsed id lacks a key. *)
Lemma normalize_identities_key_error
    (cmd : command) (n0 : namespace) (log : list string)
    (seen rest : list (string * identity)) (name : string) (i : identity) :
  identity_kind (identity_resource_id (normalized cmd n0 i)) = None ->
  fst (normalize_identities cmd seen ((name, i) :: rest)
         (mk_world (set_platform_workload_identities (Some (seen ++ (name, i) :: rest)) n0)
            log)) <> Return tt.
Proof.
  intro K. rewrite normalize_identities_cons. unfold normalized in K.
  destruct (is_valid_resource_id (identity_resource_id i)) eqn:V;
    unfold bind, read_ns, modify_ns, ret; cbn [negb ns warnings].
  - destruct (is_valid_identity_resource_id_raises _
                (mk_world (set_platform_workload_identities
                             (Some (seen ++ (name, i) :: rest)) n0) log) K) as [key ->].
    discriminate.
  - rewrite identity_name_to_resource_id_set, set_platform_workload_identities_twice.
    match goal with
    | |- context [is_valid_identity_resource_id ?r ?w] =>
        destruct (is_valid_identity_resource_id_raises _ w K) as [key ->]
    end.
    discriminate.
Qed.

Lemma normalize_identities_returns (cmd : command) (n0 : namespace) (log : list string) :
  forall todo seen,
    fst (normalize_identities cmd seen todo
           (mk_world (set_platform_workload_identities (Some (seen ++ todo)) n0) log)) =
      Return tt ->
    Forall (accepted cmd n0) todo.
Proof.
  induction todo as [| [name i] rest IH]; intros seen H.
  - constructor.
  - destruct (identity_kind (identity_resource_id (normalized cmd n0 i))) as [[|] |] eqn:K.
    + rewrite (normalize_identities_step cmd n0 log seen rest name i K) in H.
      constructor; [exact K | apply (IH _ H)].
    + rewrite (normalize_identities_step cmd n0 log seen rest name i K) in H. discriminate.
    + exfalso. exact (normalize_identities_key_error cmd n0 log seen rest name i K H).
Qed.

(** X16.  When [validate_platform_workload_identities] passes on a present
    list, the names are pairwise distinct, the list in the namespace has
    the same names in the same order, and every identity in it has a
    resource id with provider "Microsoft.ManagedIdentity" and type
    "userAssignedIdentities": the id that was given when that was a
    resource id, the id built from its name otherwise. *)
Theorem validated_identities_are_user_assigned
    (isCreate : bool) (cmd : command) (n : namespace) (log : list string)
    (identities : list (string * identity)) (w' : world) :
  platform_workload_identities n = Some identities ->
  validate_platform_workload_identities isCreate cmd (mk_world n log) = (Return tt, w') ->
  NoDup (map fst identities) /\
  platform_workload_identities (ns w') = Some (map (normalized_pair cmd n) identities) /\
  map fst (map (normalized_pair cmd n) identities) = map fst identities /\
  Forall (fun p => identity_kind (identity_resource_id (snd p)) = Some true)
    (map (normalized_pair cmd n) identities).
Proof.
  intros Hp H.
  assert (Hrun : duplicate_names (map fst identities) = [] /\
                 normalize_identities cmd [] identities (mk_world n log) = (Return tt, w')).
  { revert H. unfold validate_platform_workload_identities, bind, read_ns.
    cbn [ns fst]. rewrite Hp.
    destruct isCreate.
    - destruct (enable_managed_identity n) as [| enabled]; cbn [read_attr raise];
        [discriminate |]. cbn [ret].
      destruct (truthy_bool enabled); cbn [andb negb raise_if raise ret];
        [| discriminate].
      destruct (duplicate_names (map fst identities)); [auto | discriminate].
    - cbn [ret andb negb raise_if].
      destruct (duplicate_names (map fst identities)); [auto | discriminate]. }
  destruct Hrun as [Hdup Hloop].
  assert (Hstate : mk_world n log =
                   mk_world (set_platform_workload_identities (Some ([] ++ identities)) n) log).
  { cbn [app]. rewrite <- Hp, set_platform_workload_identities_same. reflexivity. }
  rewrite Hstate in Hloop.
  assert (Hall : Forall (accepted cmd n) identities).
  { apply (normalize_identities_returns cmd n log identities []). rewrite Hloop. reflexivity. }
  rewrite (@normalize_identities_accepts _ cmd n log identities [] Hall) in Hloop.
  injection Hloop as <-. split; [apply duplicate_names_nil; exact Hdup |].
  split; [reflexivity |]. split.
  - rewrite map_map. reflexivity.
  - apply Forall_map. exact Hall.
Qed.

(** X17.  When [validate_cluster_identity] passes on a present cluster
    identity, managed identity is enabled and the namespace holds a
    resource id with provider "Microsoft.ManagedIdentity" and type
    "userAssignedIdentities": the value given when that was a resource
    id, the id built from it otherwise.  Nothing else is changed. *)
Theorem validated_cluster_identity_is_user_assigned
    (cmd : command) (n : namespace) (log : list string) (given : string) (w' : world) :
  mi_user_assigned n = Some given ->
  validate_cluster_identity cmd (mk_world n log) = (Return tt, w') ->
  let rid :=
    if is_valid_resource_id given then given
    else identity_name_to_resource_id cmd n given in
  enable_managed_identity n = HasAttr (Some true) /\
  identity_kind rid = Some true /\
  w' = mk_world (set_mi_user_assigned (Some rid) n) log.
Proof.
  intros Hm. unfold validate_cluster_identity, bind, read_ns, read_attr, modify_ns.
  cbn [ns fst]. rewrite Hm.
  destruct (enable_managed_identity n) as [| [[|] |]]; cbn [raise ret truthy_bool negb raise_if];
    try discriminate.
  assert (Hsame : set_mi_user_assigned (Some given) n = n).
  { rewrite <- Hm. destruct n. reflexivity. }
  cbv zeta.
  destruct (is_valid_resource_id given) eqn:V; unfold ret, raise_if, raise;
    cbn [negb ns warnings]; cbn beta iota.
  - destruct (identity_kind given) as [[|] |] eqn:K.
    + rewrite (is_valid_identity_resource_id_kind _ _ K). cbn [negb]; cbn beta iota.
      intro H. injection H as <-. rewrite Hsame. auto.
    + rewrite (is_valid_identity_resource_id_kind _ _ K). cbn [negb]; cbn beta iota.
      discriminate.
    + destruct (is_valid_identity_resource_id_raises _ (mk_world n log) K) as [key ->].
      discriminate.
  - destruct (identity_kind (identity_name_to_resource_id cmd n given)) as [[|] |] eqn:K.
    + rewrite (is_valid_identity_resource_id_kind _ _ K). cbn [negb]; cbn beta iota.
      intro H. injection H as <-. auto.
    + rewrite (is_valid_identity_resource_id_kind _ _ K). cbn [negb]; cbn beta iota.
      discriminate.
    + match goal with
      | |- context [is_valid_identity_resource_id ?r ?w] =>
          destruct (is_valid_identity_resource_id_raises _ w K) as [key ->]
      end.
      discriminate.
Qed.

End Collaborators.

End IdentityMoreFacts.

(** ** Edges of the remaining checks *)

Module EdgeFacts.
Import Re Shape DomainShape ReFacts DomainFacts Sample.
Local Open Scope list_scope.

Lemma list_ascii_of_string_app (a b : string) :
  list_ascii_of_string (a ++ b)%string = list_ascii_of_string a ++ list_ascii_of_string b.
Proof. induction a as [| c a IH]; simpl; [reflexivity | rewrite IH; reflexivity]. Qed.

Lemma pieces_chars (P : ascii -> bool) (s : list ascii) :
  forallb (forallb P) (split_on dot s) = true ->
  forallb (fun c => P c || Ascii.eqb c dot) s = true.
Proof.
  induction s as [| c s IH]; simpl; [reflexivity |].
  destruct (Ascii.eqb c dot) eqn:E.
  - simpl. intro H. rewrite orb_true_r. simpl. apply IH, H.
  - destruct (split_on dot s) as [| piece pieces] eqn:S.
    + exfalso. exact (split_on_nonempty s S).
    + simpl. intro H. apply andb_true_iff in H as [H Hrest].
      apply andb_true_iff in H as [Hc Hpiece]. rewrite Hc. simpl.
      apply IH. simpl. rewrite Hpiece, Hrest. reflexivity.
Qed.

Lemma label_ok_chars (l : list ascii) :
  label_ok is_lower_alnum l = true ->
  forallb (fun x => is_lower_alnum x || is_hyphen x) l = true.
Proof.
  unfold label_ok. destruct l as [| c t]; [discriminate |]. intro H.
  apply andb_true_iff in H as [H _]. apply andb_true_iff in H as [H _].
  apply andb_true_iff in H as [_ H]. exact H.
Qed.

Lemma domain_pattern_no_newline (cs : list ascii) :
  matches domain_pattern (cs ++ [newline]) = false.
Proof.
  rewrite domain_pattern_matches.
  destruct (forallb (label_ok is_lower_alnum) (split_on dot (cs ++ [newline]))) eqn:E;
    [| reflexivity].
  exfalso.
  assert (H : forallb (forallb (fun x => is_lower_alnum x || is_hyphen x))
                (split_on dot (cs ++ [newline])) = true).
  { apply forallb_forall. intros l Hl. apply label_ok_chars.
    rewrite forallb_forall in E. apply E, Hl. }
  apply pieces_chars in H. rewrite forallb_app in H.
  apply andb_true_iff in H as [_ H]. vm_compute in H. discriminate.
Qed.

(** X18.  A domain followed by one newline passes [validate_domain]
    exactly when the domain itself is a dot-separated sequence of
    lower-case labels: the final newline is not looked at. *)
Theorem validate_domain_ignores_final_newline (n : namespace) (log : list string) (d : string) :
  fst (validate_domain (mk_world (with_domain (Some (trailing_newline d)) n) log)) =
    Return tt <->
  label_sequence is_lower_alnum d = true.
Proof.
  unfold validate_domain, bind, read_ns, raise_if. cbn [ns fst domain with_domain].
  unfold match_anchored, trailing_newline. cbv zeta.
  rewrite list_ascii_of_string_app. cbn [list_ascii_of_string].
  rewrite domain_pattern_no_newline, rev_app_distr. cbn [rev app].
  rewrite rev_involutive, domain_pattern_matches.
  change (Ascii.eqb newline newline) with true. cbn [orb andb].
  unfold label_sequence. change "."%char with dot.
  destruct (forallb (label_ok is_lower_alnum) (split_on dot (list_ascii_of_string d)));
    cbn; split; intro H; try reflexivity; discriminate.
Qed.

(** X19.  A present [worker_vm_disk_size_gb] passes exactly when it is 0
    or at least 128, and a present
    [load_balancer_managed_outbound_ip_count] passes exactly when it lies
    between 1 and 20: the value 0 counts as absent for the first and is
    rejected by the second. *)
Theorem scalar_bounds (o : options) (w : world) :
  (forall size,
     worker_vm_disk_size_gb o = Some size ->
     fst (validate_worker_vm_disk_size_gb o w) = Return tt <->
     (size = 0 \/ 128 <= size)%Z) /\
  (forall count,
     load_balancer_managed_outbound_ip_count o = Some count ->
     fst (validate_load_balancer_managed_outbound_ip_count o w) = Return tt <->
     (1 <= count <= 20)%Z).
Proof.
  split.
  - intros size Hs. unfold validate_worker_vm_disk_size_gb, raise_if. rewrite Hs.
    destruct (Z.eqb_spec size 0) as [-> | Hne].
    + cbn. split; auto.
    + destruct (Z.ltb_spec size 128); cbn; split; intro Hx; try reflexivity;
        try discriminate; lia.
  - intros count Hc. unfold validate_load_balancer_managed_outbound_ip_count, raise_if.
    rewrite Hc. cbv zeta.
    destruct (Z.ltb_spec count 1); destruct (Z.ltb_spec 20 count); cbn;
      split; intro Hx; try reflexivity; try discriminate; lia.
Qed.

Section AnyRuntime.
Context {rt : Runtime}.

(** X20.  When the pull secret names a readable file, the value that
    [validate_pull_secret] leaves in the namespace is the file's contents
    with its trailing newlines cut off and nothing else removed: the
    contents are that value followed by newlines only, and the value does
    not end in a newline. *)
Theorem pull_secret_from_file_is_trimmed
    (n : namespace) (log : list string) (path contents : string) :
  pull_secret n = Some path ->
  file_system path = TextFile contents ->
  exists (stored : string) (k : nat),
    pull_secret (ns (snd (validate_pull_secret (mk_world n log)))) = Some stored /\
    contents = (stored ++ Cases.newlines k)%string /\
    ends_with_newline stored = false.
Proof.
  intros Hp Hf.
  destruct (PullSecretFacts.rstrip_newline_spec contents) as [[k Hk] He].
  exists (PyStr.rstrip_newline contents), k. split; [| split; assumption].
  unfold validate_pull_secret, bind, read_ns, try_except, modify_ns.
  cbn [ns fst]. rewrite Hp. cbn beta iota. rewrite Hf. cbn [ns fst snd pull_secret set_pull_secret].
  destruct (json_loads (PyStr.rstrip_newline contents)) as [[|] |]; reflexivity.
Qed.

End AnyRuntime.

End EdgeFacts.

(** ** The further properties on examples *)

Module MoreExamples.
Import Sample Cases IdentityShape.
Import ReadOnlyFacts NetworkFacts SubnetMoreFacts IdentityMoreFacts EdgeFacts.

Lemma client_credentials_agree_witness :
  fst (validate_client_id (rt := one_file) true (mk_world (disabled service_principal) [])) =
    Return tt <->
  fst (validate_client_secret true (mk_world (disabled service_principal) [])) = Return tt.
Proof.
  exact (client_credentials_agree (rt := one_file) true (disabled service_principal) []
           eq_refl eq_refl eq_refl eq_refl eq_refl).
Defined.

Lemma managed_identity_excludes_credentials_witness :
  client_id managed_cluster = None /\ client_secret managed_cluster = None /\
  truthy_list (platform_workload_identities managed_cluster) = true /\
  PyStr.truthy_opt (mi_user_assigned managed_cluster) = true /\
  forall isCreate,
    fst (validate_client_id (rt := one_file) isCreate (mk_world managed_cluster [])) =
      Return tt /\
    fst (validate_client_secret isCreate (mk_world managed_cluster [])) = Return tt.
Proof.
  exact (managed_identity_excludes_credentials (rt := one_file) managed_cluster []
           eq_refl eq_refl).
Defined.

Lemma refresh_credentials_stand_alone_witness :
  fst (validate_refresh_cluster_credentials refreshing (mk_world blank [])) = Return tt.
Proof.
  apply (refresh_credentials_stand_alone refreshing blank [] eq_refl).
  repeat split.
Defined.

Lemma validate_subnets_needs_two_subnets_witness :
  fst (validate_subnets (ids := plain_ids) master_id shouting_master_id (mk_world blank [])) <>
    Return tt /\
  fst (validate_subnets (ids := plain_ids) master_id worker_id (mk_world blank [])) =
    Return tt.
Proof.
  split.
  - exact (validate_subnets_needs_two_subnets (ids := plain_ids) master_id
             shouting_master_id (master_child := "master") (worker_child := "MASTER")
             (mk_world blank []) eq_refl eq_refl eq_refl).
  - vm_compute. reflexivity.
Defined.

Lemma validate_disk_encryption_set_cases_witness :
  validate_disk_encryption_set (ids := plain_ids) (answering (CloudError "no access"))
    (with_disk_encryption_set des_id) (mk_world blank []) =
    (Raise (InvalidArgumentValueError
              ("Invalid --disk-encryption-set, error when getting '" ++ des_id ++
               "': no access")), mk_world blank []) /\
  validate_disk_encryption_set (ids := plain_ids) (answering (Failed boom))
    (with_disk_encryption_set des_id) (mk_world blank []) =
    (Raise boom, mk_world blank []) /\
  validate_disk_encryption_set (ids := plain_ids) (answering Fetched)
    (with_disk_encryption_set "des1") (mk_world blank []) =
    (Raise (InvalidArgumentValueError
              "Invalid --disk-encryption-set 'des1', has to be a resource ID."),
     mk_world blank []).
Proof.
  split; [| split].
  - exact (proj2 (validate_disk_encryption_set_cases (ids := plain_ids)
                    (answering (CloudError "no access")) (with_disk_encryption_set des_id)
                    (mk_world blank []) eq_refl) eq_refl "rg1" "des1" eq_refl eq_refl).
  - exact (proj2 (validate_disk_encryption_set_cases (ids := plain_ids)
                    (answering (Failed boom)) (with_disk_encryption_set des_id)
                    (mk_world blank []) eq_refl) eq_refl "rg1" "des1" eq_refl eq_refl).
  - exact (proj1 (validate_disk_encryption_set_cases (ids := plain_ids)
                    (answering Fetched) (with_disk_encryption_set "des1")
                    (mk_world blank []) eq_refl) eq_refl).
Defined.

Lemma validate_vnet_idempotent_witness :
  validate_vnet (ids := plain_ids) (context None)
    (snd (validate_vnet (ids := plain_ids) (context None) (mk_world short_names []))) =
  validate_vnet (ids := plain_ids) (context None) (mk_world short_names []).
Proof.
  apply (validate_vnet_idempotent (ids := plain_ids) (context None) (mk_world short_names [])).
  intros v H. injection H as <-. reflexivity.
Defined.

Lemma validate_subnet_writes_only_when_resolving_witness :
  snd (validate_subnet (ids := plain_ids) "master_subnet" (context (Some boom))
         (mk_world full_ids [])) = mk_world full_ids [] /\
  validate_subnet (ids := plain_ids) "worker_subnet" (context None)
    (mk_world (set_worker_subnet (Some "worker") blank) []) =
    (Raise (RequiredArgumentMissingError
              "Must specify --vnet if --worker-subnet is not an id."),
     mk_world (set_worker_subnet (Some "worker") blank) []).
Proof.
  split.
  - exact (proj1 (validate_subnet_writes_only_when_resolving (ids := plain_ids)
                    "master_subnet" (context (Some boom)) (mk_world full_ids [])
                    eq_refl) eq_refl).
  - exact (proj2 (validate_subnet_writes_only_when_resolving (ids := plain_ids)
                    "worker_subnet" (context None)
                    (mk_world (set_worker_subnet (Some "worker") blank) [])
                    eq_refl) eq_refl eq_refl).
Defined.

Lemma validate_subnet_passes_again_witness :
  validate_subnet (ids := plain_ids) "master_subnet" (context None) (mk_world full_ids []) =
    (Return tt, mk_world full_ids []).
Proof.
  apply (validate_subnet_passes_again (ids := plain_ids) "master_subnet" (context None)
           (mk_world short_names []) (subnet := master_id)).
  - vm_compute. reflexivity.
  - reflexivity.
  - reflexivity.
Defined.

Lemma validated_identities_are_user_assigned_witness :
  NoDup (map fst by_name) /\
  platform_workload_identities (cluster true
    [("csi", mk_identity csi_id); ("registry", mk_identity registry_id)]) =
    Some (map (normalized_pair (ids := plain_ids) (context None) (cluster true by_name))
            by_name) /\
  map fst (map (normalized_pair (ids := plain_ids) (context None) (cluster true by_name))
             by_name) = map fst by_name /\
  Forall (fun p => identity_kind (ids := plain_ids) (identity_resource_id (snd p)) = Some true)
    (map (normalized_pair (ids := plain_ids) (context None) (cluster true by_name)) by_name).
Proof.
  apply (validated_identities_are_user_assigned (ids := plain_ids) (rt := one_file)
           true (context None) (cluster true by_name) [] 
           (w' := mk_world (cluster true
                    [("csi", mk_identity csi_id); ("registry", mk_identity registry_id)]) [])).
  - reflexivity.
  - vm_compute. reflexivity.
Defined.

Lemma validated_cluster_identity_is_user_assigned_witness :
  enable_managed_identity managed_cluster = HasAttr (Some true) /\
  identity_kind (ids := plain_ids) cluster_identity_id = Some true /\
  mk_world (set_mi_user_assigned (Some cluster_identity_id) managed_cluster) [] =
  mk_world (set_mi_user_assigned (Some cluster_identity_id) managed_cluster) [].
Proof.
  exact (validated_cluster_identity_is_user_assigned (ids := plain_ids)
           (context None) managed_cluster [] (given := "cluster-identity")
           (w' := mk_world (set_mi_user_assigned (Some cluster_identity_id) managed_cluster) [])
           eq_refl eq_refl).
Defined.

Lemma scalar_bounds_witness :
  fst (validate_worker_vm_disk_size_gb (with_disk_size 128) (mk_world blank [])) = Return tt /\
  fst (validate_load_balancer_managed_outbound_ip_count (with_ip_count 20)
         (mk_world blank [])) = Return tt.
Proof.
  split.
  - apply (proj1 (scalar_bounds (with_disk_size 128) (mk_world blank [])) 128%Z eq_refl).
    right. lia.
  - apply (proj2 (scalar_bounds (with_ip_count 20) (mk_world blank [])) 20%Z eq_refl).
    lia.
Defined.

Lemma pull_secret_from_file_is_trimmed_witness :
  exists (stored : string) (k : nat),
    pull_secret (ns (snd (validate_pull_secret (rt := one_file) (mk_world from_file [])))) =
      Some stored /\
    (secret_text ++ String Re.newline EmptyString)%string = (stored ++ newlines k)%string /\
    Shape.ends_with_newline stored = false.
Proof.
  exact (pull_secret_from_file_is_trimmed (rt := one_file) from_file []
           (path := secret_path) eq_refl eq_refl).
Defined.

End MoreExamples.

(** ** What passing means *)

Module PassingFacts.
Import Sample Cases.

Section Collaborators.
Context {ids : ResourceIds} {rt : Runtime}.

(** X21.  A present client id passes [validate_client_id] exactly when
    managed identity is not enabled, no platform workload identities are
    given, [uuid.UUID] accepts the id, a non-empty client secret is given
    and, on update, no upgrade target is given. *)
Theorem validate_client_id_passes
    (isCreate : bool) (n : namespace) (log : list string) (cid : string) :
  client_id n = Some cid ->
  fst (validate_client_id isCreate (mk_world n log)) = Return tt <->
  enable_managed_identity n <> HasAttr (Some true) /\
  platform_workload_identities n = None /\
  uuid_parses cid = true /\
  PyStr.truthy_opt (client_secret n) = true /\
  (isCreate = true \/ upgradeable_to n = None).
Proof.
  intro Hc. unfold validate_client_id, bind, read_ns, raise_if, ret, raise.
  cbn [ns fst snd]. rewrite Hc.
  destruct (enable_managed_identity n) as [| [[|] |]]; cbn beta iota;
    try (split; [discriminate | intros (H & _); exfalso; apply H; reflexivity]);
    (destruct (platform_workload_identities n); cbn;
     [split; [discriminate | intros (_ & H & _); discriminate] |]);
    (destruct (uuid_parses cid); cbn;
     [| split; [discriminate | intros (_ & _ & H & _); discriminate]]);
    (destruct (PyStr.truthy_opt (client_secret n)); cbn;
     [| split; [discriminate | intros (_ & _ & _ & H & _); discriminate]]);
    destruct isCreate; cbn;
    try (split; [intros _; repeat split; (discriminate || auto) | reflexivity]);
    (destruct (upgradeable_to n); cbn;
     [split; [discriminate | intros (_ & _ & _ & _ & [H | H]); discriminate]
     | split; [intros _; repeat split; (discriminate || auto) | reflexivity]]).
Qed.

(** X22.  [validate_subnets] passes exactly when both ids have a resource
    group, a vnet name and a subnet name, the resource groups and the vnet
    names are equal up to case, and the subnet names differ even up to
    case. *)
Theorem validate_subnets_passes (master worker : string) (w : world) :
  fst (validate_subnets master worker w) = Return tt <->
  exists mg wg mn wn mc wc : string,
    p_resource_group (parse_resource_id master) = Some mg /\
    p_resource_group (parse_resource_id worker) = Some wg /\
    p_name (parse_resource_id master) = Some mn /\
    p_name (parse_resource_id worker) = Some wn /\
    p_child_name_1 (parse_resource_id master) = Some mc /\
    p_child_name_1 (parse_resource_id worker) = Some wc /\
    same_ignoring_case mg wg = true /\
    same_ignoring_case mn wn = true /\
    same_ignoring_case mc wc = false.
Proof.
  unfold validate_subnets, same_ignoring_case, bind, subscript, raise_if, ret, raise.
  split.
  - destruct (p_resource_group (parse_resource_id master)) as [mg |]; [| discriminate].
    destruct (p_resource_group (parse_resource_id worker)) as [wg |]; [| discriminate].
    cbn beta iota.
    destruct (PyStr.lower mg =? PyStr.lower wg) eqn:Eg; cbn; [| discriminate].
    destruct (p_name (parse_resource_id master)) as [mn |]; [| discriminate].
    destruct (p_name (parse_resource_id worker)) as [wn |]; [| discriminate].
    cbn beta iota.
    destruct (PyStr.lower mn =? PyStr.lower wn) eqn:En; cbn; [| discriminate].
    destruct (p_child_name_1 (parse_resource_id master)) as [mc |]; [| discriminate].
    destruct (p_child_name_1 (parse_resource_id worker)) as [wc |]; [| discriminate].
    cbn beta iota.
    destruct (PyStr.lower mc =? PyStr.lower wc) eqn:Ec; cbn; [discriminate |].
    intros _. exists mg, wg, mn, wn, mc, wc. repeat split; assumption.
  - intros (mg & wg & mn & wn & mc & wc & -> & -> & -> & -> & -> & -> & Eg & En & Ec).
    cbn. rewrite Eg. cbn. rewrite En. cbn. rewrite Ec. reflexivity.
Qed.

End Collaborators.

Lemma validate_client_id_passes_witness :
  fst (validate_client_id (rt := one_file) true
         (mk_world (disabled service_principal) [])) = Return tt.
Proof.
  apply (validate_client_id_passes (rt := one_file) true (disabled service_principal) []
           eq_refl).
  repeat split; try reflexivity; try discriminate. left. reflexivity.
Defined.

End PassingFacts.
